(** * The vcluster resource of terraform-provider-vcluster

    A shallow embedding of [vcluster/resource_vcluster.go]: the argument
    vectors the four lifecycle operations hand to the external [vcluster]
    tool, and the way [resourceVClusterRead] folds the tool's [list] output
    back into the resource record.

    What lies outside the repository is kept abstract:
    - [time.Time] is a type with a zero value and a decidable [==];
    - [cmd.CombinedOutput] is an oracle answering an argument vector, given
      the commands that ran before it;
    - [json.Unmarshal] is a decoder from the tool's output to either an
      error or a sequence of [ListEntry].
    The record behind [*schema.ResourceData] is the finite map of the values
    [d.Get] hands out: a key bound to no value is a [nil] result. *)

From stdpp Require Import base strings list gmap.

Open Scope string_scope.
Open Scope list_scope.

(** ** Panics

    A failed type assertion [x.(T)] panics; [Outcome] keeps that visible. *)

Inductive Outcome (A : Type) : Type :=
| Return (a : A)
| Panic.
Arguments Return {A} a.
Arguments Panic {A}.

Definition bind {A B : Type} (m : Outcome A) (k : A -> Outcome B) : Outcome B :=
  match m with
  | Return a => k a
  | Panic => Panic
  end.

Notation "x <- m ; k" := (bind m (fun x => k))
  (at level 20, m at level 100, k at level 200, only parsing).

(** ** Diagnostics ([diag.Diagnostics]) *)

Inductive Severity : Type := Error | Warning.

Record Diagnostic : Type := mkDiagnostic {
  DSeverity : Severity;
  Summary : string;
  Detail : string
}.

Definition Diagnostics : Type := list Diagnostic.

(** [diag.FromErr(err)] for a non-nil [err]; an error is kept as its message. *)
Definition FromErr (err : string) : Diagnostics :=
  [ {| DSeverity := Error; Summary := err; Detail := "" |} ].

(** ** External commands ([exec.Command(name, args...)]) *)

Record Cmd : Type := mkCmd {
  Path : string;
  Args : list string
}.

(** [strings.Join(args, " ")] *)
Definition Join (args : list string) (sep : string) : string :=
  String.concat sep args.

(** [fmt.Sprintf("%v", b)] for a [bool] *)
Definition fmtBool (b : bool) : string :=
  if b then "true" else "false".

Section Reconciler.

Context {Time : Type} `{EqDecision Time}.
Variable zeroTime : Time.

(** ** The resource record *)

(** The dynamic values ([interface{}]) that pass through [d.Get] and [d.Set]. *)
Inductive Value : Type :=
| VString (s : string)
| VBool (b : bool)
| VList (l : list string)
| VTime (t : Time).

Record ResourceData : Type := mkResourceData {
  Id : string;
  fields : gmap string Value
}.

Definition Get (d : ResourceData) (key : string) : option Value :=
  fields d !! key.

Definition Set_ (d : ResourceData) (key : string) (v : Value) : ResourceData :=
  {| Id := Id d; fields := <[key := v]> (fields d) |}.

Definition SetId (d : ResourceData) (v : string) : ResourceData :=
  {| Id := v; fields := fields d |}.

(** [v.(string)] and [v.(bool)] on a non-nil interface value *)
Definition assertString (v : Value) : Outcome string :=
  match v with
  | VString s => Return s
  | _ => Panic
  end.

Definition assertBool (v : Value) : Outcome bool :=
  match v with
  | VBool b => Return b
  | _ => Panic
  end.

(** [d.Get(key).(string)]: the assertion also panics on [nil]. *)
Definition GetString (d : ResourceData) (key : string) : Outcome string :=
  match Get d key with
  | Some v => assertString v
  | None => Panic
  end.

(** ** Argument vectors *)

(** [if x := d.Get(key); x != nil && x.(string) != "" { args = append(args, mk(x)...) }] *)
Definition appendIfString (d : ResourceData) (key : string)
    (mk : string -> list string) (args : list string) : Outcome (list string) :=
  match Get d key with
  | None => Return args
  | Some v =>
      s <- assertString v ;
      Return (if decide (s = "") then args else args ++ mk s)
  end.

(** [if x := d.Get(key); x != nil { args = append(args, fmt.Sprintf(flag+"=%v", x.(bool))) }] *)
Definition appendIfBool (d : ResourceData) (key : string)
    (flag : string) (args : list string) : Outcome (list string) :=
  match Get d key with
  | None => Return args
  | Some v =>
      b <- assertBool v ;
      Return (args ++ [flag +:+ "=" +:+ fmtBool b])
  end.

Definition vclusterBaseArgs (d : ResourceData) (args : list string)
    : Outcome (list string) :=
  args <- appendIfString d "namespace" (fun s => ["--namespace"; s]) args ;
  args <- appendIfString d "context" (fun s => ["--context"; s]) args ;
  Return args.

(** Lines 141-173 of [resourceVClusterCreate]: the vector it passes to
    [exec.Command]. *)
Definition createArgs (d : ResourceData) (vClusterName : string)
    : Outcome (list string) :=
  args <- vclusterBaseArgs d ["create"; vClusterName; "--connect=false"] ;
  args <- appendIfString d "distro" (fun s => ["--distro=" +:+ s]) args ;
  args <- appendIfBool d "isolate" "--isolate" args ;
  args <- appendIfBool d "expose" "--expose" args ;
  args <- appendIfBool d "expose_local" "--expose-local" args ;
  args <- appendIfBool d "disable_ingress_sync" "--disable-ingress-sync" args ;
  args <- appendIfBool d "create_namespace" "--create-namespace" args ;
  args <- appendIfString d "kubernetes_version"
            (fun s => ["--kubernetes-version=" +:+ s]) args ;
  Return args.

(** ** The external tool and its output *)

(** [cmd.CombinedOutput()]: the combined output and the error ([None] is
    [nil]) of running a command after the commands in the history. *)
Variable CombinedOutput : list Cmd -> Cmd -> string * option string.

(** The diagnostics returned when the command fails:
    [Summary: fmt.Sprint("vcluster ", strings.Join(args, " ")), Detail: string(output)]. *)
Definition commandFailed (args : list string) (output : string) : Diagnostics :=
  [ {| DSeverity := Error;
       Summary := "vcluster " +:+ Join args " ";
       Detail := output |} ].

Record ListEntry : Type := mkListEntry {
  Name : string;
  Namespace : string;
  Status : string;
  Created : Time;
  Context : string
}.

#[global] Instance ListEntry_eq_dec : EqDecision ListEntry.
Proof. solve_decision. Defined.

(** [ListEntry{}] *)
Definition zeroListEntry : ListEntry :=
  {| Name := ""; Namespace := ""; Status := ""; Created := zeroTime; Context := "" |}.

(** [json.Unmarshal(output, &entries)]: the error, or the decoded entries. *)
Variable Unmarshal : string -> string + list ListEntry.

(** ** The lifecycle operations

    An operation takes the record and the commands run so far, and returns
    its diagnostics ([[]] is [nil]), the record and the commands run.  The
    [ctx] argument is never consulted; [m] is the [*Meta] of
    [providerConfigure] and is discarded. *)

Definition Operation : Type :=
  ResourceData -> list Cmd -> Outcome (Diagnostics * ResourceData * list Cmd).

Definition resourceVClusterCreate : Operation := fun d h =>
  vClusterName <- GetString d "name" ;
  args <- createArgs d vClusterName ;
  let cmd := mkCmd "vcluster" args in
  let (output, err) := CombinedOutput h cmd in
  match err with
  | Some _ => Return (commandFailed args output, d, h ++ [cmd])
  | None =>
      let d := SetId d vClusterName in
      let d := Set_ d "name" (VString vClusterName) in
      Return ([], d, h ++ [cmd])
  end.

(** The loop of lines 241-247, from the entries decoded so far. *)
Definition scanEntries (id : string) (entries : list ListEntry) : ListEntry :=
  fold_left (fun resourceEntry entry =>
               if decide (Name entry = id) then entry else resourceEntry)
            entries zeroListEntry.

Definition resourceVClusterRead : Operation := fun d h =>
  args <- vclusterBaseArgs d ["list"; "--output"; "json"] ;
  let cmd := mkCmd "vcluster" args in
  let (output, err) := CombinedOutput h cmd in
  match err with
  | Some _ => Return (commandFailed args output, d, h ++ [cmd])
  | None =>
      match Unmarshal output with
      | inl err => Return (FromErr err, d, h ++ [cmd])
      | inr entries =>
          let resourceEntry := scanEntries (Id d) entries in
          if decide (resourceEntry = zeroListEntry) then
            Return ([], SetId d "", h ++ [cmd])
          else
            let d := Set_ d "name" (VString (Name resourceEntry)) in
            let d := Set_ d "status" (VString (Status resourceEntry)) in
            let d := Set_ d "created" (VTime (Created resourceEntry)) in
            Return ([], d, h ++ [cmd])
      end
  end.

Definition resourceVClusterUpdate : Operation := fun d h =>
  Return ([], d, h).

Definition resourceVClusterDelete : Operation := fun d h =>
  name <- GetString d "name" ;
  args <- vclusterBaseArgs d ["delete"; name] ;
  let cmd := mkCmd "vcluster" args in
  let (output, err) := CombinedOutput h cmd in
  match err with
  | Some _ => Return (commandFailed args output, d, h ++ [cmd])
  | None => Return ([], d, h ++ [cmd])
  end.

(** ** Vocabulary of the specification *)

(** The types the schema (lines 30-119) gives the fields the operations read. *)
Inductive ValueType : Type := TypeString | TypeBool.

Definition readFields : list (string * ValueType) :=
  [ ("name", TypeString); ("distro", TypeString);
    ("kubernetes_version", TypeString);
    ("create_namespace", TypeBool); ("disable_ingress_sync", TypeBool);
    ("expose", TypeBool); ("expose_local", TypeBool); ("isolate", TypeBool);
    ("context", TypeString); ("namespace", TypeString) ].

Definition hasType (v : Value) (ty : ValueType) : bool :=
  match v, ty with
  | VString _, TypeString => true
  | VBool _, TypeBool => true
  | _, _ => false
  end.

(** A field is nil or holds a value of its schema type. *)
Definition fieldTyped (d : ResourceData) (key : string) (ty : ValueType) : bool :=
  match Get d key with
  | None => true
  | Some v => hasType v ty
  end.

Definition wellTyped (d : ResourceData) : bool :=
  forallb (fun kt => fieldTyped d kt.1 kt.2) readFields.

(** The string a field holds; the empty string when it is nil. *)
Definition stringField (d : ResourceData) (key : string) : string :=
  match Get d key with
  | Some (VString s) => s
  | _ => ""
  end.

(** A flag followed by its value, emitted only for a non-empty value. *)
Definition targetingFlag (d : ResourceData) (key flag : string) : list string :=
  if decide (stringField d key = "") then [] else [flag; stringField d key].

(** The targeting flags of the specification: [--namespace <ns>], then
    [--context <ctx>]. *)
Definition targetingFlags (d : ResourceData) : list string :=
  targetingFlag d "namespace" "--namespace" ++ targetingFlag d "context" "--context".

(** [--flag=<value>], emitted only for a non-empty value. *)
Definition stringFlag (d : ResourceData) (key flag : string) : list string :=
  if decide (stringField d key = "") then [] else [flag +:+ "=" +:+ stringField d key].

(** [--flag=<bool>], emitted whenever the field is present. *)
Definition boolFlag (d : ResourceData) (key flag : string) : list string :=
  match Get d key with
  | Some (VBool b) => [flag +:+ "=" +:+ fmtBool b]
  | _ => []
  end.

(** The boolean fields of Create and their flags. *)
Definition boolFlags : list (string * string) :=
  [ ("isolate", "--isolate"); ("expose", "--expose");
    ("expose_local", "--expose-local");
    ("disable_ingress_sync", "--disable-ingress-sync");
    ("create_namespace", "--create-namespace") ].

(** The flags Create derives from the fields of the record, in the order it
    appends them. *)
Definition createFlags (d : ResourceData) : list string :=
  stringFlag d "distro" "--distro"
  ++ flat_map (fun kf => boolFlag d kf.1 kf.2) boolFlags
  ++ stringFlag d "kubernetes_version" "--kubernetes-version".

(** The argument vectors, as a fixed head, the targeting flags, and the
    flags of the operation. *)
Definition createVector (d : ResourceData) (name : string) : list string :=
  ["create"; name; "--connect=false"] ++ targetingFlags d ++ createFlags d.

Definition readVector (d : ResourceData) : list string :=
  ["list"; "--output"; "json"] ++ targetingFlags d.

Definition deleteVector (d : ResourceData) (name : string) : list string :=
  ["delete"; name] ++ targetingFlags d.

(** The names of the flags that only Create emits. *)
Definition createFlagNames : list string :=
  "--distro" :: map snd boolFlags ++ ["--kubernetes-version"].

(** [t] is [name=...] for one of the names. *)
Definition isFlagOf (names : list string) (t : string) : bool :=
  existsb (fun name => String.prefix (name +:+ "=") t) names.


(** How many times a token occurs in a vector. *)
Definition occurrences (token : string) (args : list string) : nat :=
  count_occ String.string_dec args token.

(** The operation runs the [vcluster] tool once, on [args]. *)
Definition invokes (op : Operation) (d : ResourceData) (h : list Cmd)
    (args : list string) : Prop :=
  exists diags d', op d h = Return (diags, d', h ++ [mkCmd "vcluster" args]).

(** [entry] is the last entry of [entries], in document order, whose [Name]
    is [id]. *)
Definition lastMatch (id : string) (entries : list ListEntry) (entry : ListEntry)
    : Prop :=
  exists before after,
    entries = before ++ entry :: after /\
    Name entry = id /\
    Forall (fun later => Name later <> id) after.

(** No entry of [entries] has [id] as its [Name]. *)
Definition noMatch (id : string) (entries : list ListEntry) : Prop :=
  Forall (fun entry => Name entry <> id) entries.

End Reconciler.

Arguments Value Time : clear implicits.
Arguments ResourceData Time : clear implicits.
Arguments ListEntry Time : clear implicits.

(** ** The declared schemas

    The attributes of [schema.Schema] that the repository sets; an attribute
    a literal leaves out has its zero value. *)

Module schema.

Inductive ValueType : Type := TypeBool | TypeString | TypeList | TypeMap.

(** [validation.StringInSlice(valid, ignoreCase)], kept as its arguments. *)
Inductive SchemaValidateFunc : Type :=
| StringInSlice (valid : list string) (ignoreCase : bool).

Record Schema : Type := mkSchema {
  Type_ : ValueType;
  Description : string;
  Required : bool;
  Optional : bool;
  Computed : bool;
  ForceNew : bool;
  ValidateFunc : option SchemaValidateFunc;
  ConflictsWith : list string;
  Elem : option ValueType
}.

End schema.

Definition distroKinds : list string := ["k0s"; "k8s"; "k3s"].

(** The [Schema] map of [resourceVCluster] (lines 30-119). *)
Definition resourceVClusterSchema : gmap string schema.Schema :=
  list_to_map
    [ ("name",
       {| schema.Type_ := schema.TypeString;
          schema.Description := "The name of the vcluster";
          schema.Required := true; schema.Optional := false;
          schema.Computed := false; schema.ForceNew := true;
          schema.ValidateFunc := None; schema.ConflictsWith := [];
          schema.Elem := None |});
      ("distro",
       {| schema.Type_ := schema.TypeString;
          schema.Description := "";
          schema.Required := false; schema.Optional := true;
          schema.Computed := false; schema.ForceNew := true;
          schema.ValidateFunc := Some (schema.StringInSlice distroKinds true);
          schema.ConflictsWith := [];
          schema.Elem := None |});
      ("extra_values",
       {| schema.Type_ := schema.TypeList;
          schema.Description := "List of values in raw yaml format to pass to vcluster.";
          schema.Required := false; schema.Optional := true;
          schema.Computed := false; schema.ForceNew := false;
          schema.ValidateFunc := None; schema.ConflictsWith := [];
          schema.Elem := Some schema.TypeString |});
      ("chart",
       {| schema.Type_ := schema.TypeString;
          schema.Description := "The virtual cluster chart name to use";
          schema.Required := false; schema.Optional := true;
          schema.Computed := false; schema.ForceNew := false;
          schema.ValidateFunc := None; schema.ConflictsWith := [];
          schema.Elem := None |});
      ("chart_version",
       {| schema.Type_ := schema.TypeString;
          schema.Description := "The virtual cluster chart version to use (e.g. v0.9.1)";
          schema.Required := false; schema.Optional := true;
          schema.Computed := false; schema.ForceNew := false;
          schema.ValidateFunc := None; schema.ConflictsWith := [];
          schema.Elem := None |});
      ("chart_repo",
       {| schema.Type_ := schema.TypeString;
          schema.Description := "The virtual cluster chart repo to use";
          schema.Required := false; schema.Optional := true;
          schema.Computed := false; schema.ForceNew := false;
          schema.ValidateFunc := None; schema.ConflictsWith := [];
          schema.Elem := None |});
      ("local_chart_dir",
       {| schema.Type_ := schema.TypeString;
          schema.Description := "The virtual cluster local chart dir to use";
          schema.Required := false; schema.Optional := true;
          schema.Computed := false; schema.ForceNew := false;
          schema.ValidateFunc := None;
          schema.ConflictsWith := ["chart"; "chart_version"; "chart_repo"];
          schema.Elem := None |});
      ("kubernetes_version",
       {| schema.Type_ := schema.TypeString;
          schema.Description := "The kubernetes version to use (e.g. v1.20). Patch versions are not supported";
          schema.Required := false; schema.Optional := true;
          schema.Computed := false; schema.ForceNew := false;
          schema.ValidateFunc := None; schema.ConflictsWith := [];
          schema.Elem := None |});
      ("create_namespace",
       {| schema.Type_ := schema.TypeBool;
          schema.Description := "If true the namespace will be created if it does not exist";
          schema.Required := false; schema.Optional := true;
          schema.Computed := false; schema.ForceNew := false;
          schema.ValidateFunc := None; schema.ConflictsWith := [];
          schema.Elem := None |});
      ("disable_ingress_sync",
       {| schema.Type_ := schema.TypeBool;
          schema.Description := "If true the virtual cluster will not sync any ingresses";
          schema.Required := false; schema.Optional := true;
          schema.Computed := false; schema.ForceNew := false;
          schema.ValidateFunc := None; schema.ConflictsWith := [];
          schema.Elem := None |});
      ("expose",
       {| schema.Type_ := schema.TypeBool;
          schema.Description := "If true will create a load balancer service to expose the vcluster endpoint";
          schema.Required := false; schema.Optional := true;
          schema.Computed := false; schema.ForceNew := false;
          schema.ValidateFunc := None; schema.ConflictsWith := [];
          schema.Elem := None |});
      ("expose_local",
       {| schema.Type_ := schema.TypeBool;
          schema.Description := "If true and a local Kubernetes distro is detected, will deploy vcluster with a NodePort service";
          schema.Required := false; schema.Optional := true;
          schema.Computed := false; schema.ForceNew := false;
          schema.ValidateFunc := None; schema.ConflictsWith := [];
          schema.Elem := None |});
      ("isolate",
       {| schema.Type_ := schema.TypeBool;
          schema.Description := "If true vcluster and its workloads will run in an isolated environment";
          schema.Required := false; schema.Optional := true;
          schema.Computed := false; schema.ForceNew := false;
          schema.ValidateFunc := None; schema.ConflictsWith := [];
          schema.Elem := None |});
      ("context",
       {| schema.Type_ := schema.TypeString;
          schema.Description := "The kubernetes config context to use";
          schema.Required := false; schema.Optional := true;
          schema.Computed := false; schema.ForceNew := false;
          schema.ValidateFunc := None; schema.ConflictsWith := [];
          schema.Elem := None |});
      ("namespace",
       {| schema.Type_ := schema.TypeString;
          schema.Description := "The kubernetes namespace to use";
          schema.Required := false; schema.Optional := true;
          schema.Computed := false; schema.ForceNew := false;
          schema.ValidateFunc := None; schema.ConflictsWith := [];
          schema.Elem := None |});
      ("status",
       {| schema.Type_ := schema.TypeString;
          schema.Description := "";
          schema.Required := false; schema.Optional := false;
          schema.Computed := true; schema.ForceNew := false;
          schema.ValidateFunc := None; schema.ConflictsWith := [];
          schema.Elem := None |});
      ("created",
       {| schema.Type_ := schema.TypeString;
          schema.Description := "";
          schema.Required := false; schema.Optional := false;
          schema.Computed := true; schema.ForceNew := false;
          schema.ValidateFunc := None; schema.ConflictsWith := [];
          schema.Elem := None |}) ].

Section Declarations.

Context {Time : Type}.

(** A dynamic value is of a declared type. *)
Definition valueHasType (v : Value Time) (ty : schema.ValueType) : bool :=
  match v, ty with
  | VString _, schema.TypeString => true
  | VBool _, schema.TypeBool => true
  | VList _, schema.TypeList => true
  | _, _ => false
  end.

(** Every value of the record sits under a declared key and is of the type
    declared for it. *)
Definition conforms (s : gmap string schema.Schema) (d : ResourceData Time) : bool :=
  forallb (fun kv => match s !! kv.1 with
                     | Some f => valueHasType kv.2 (schema.Type_ f)
                     | None => false
                     end)
          (map_to_list (fields d)).

(** Every field declared [Required] holds a value. *)
Definition hasRequired (s : gmap string schema.Schema) (d : ResourceData Time) : bool :=
  forallb (fun kf => if schema.Required kf.2
                     then bool_decide (is_Some (Get d kf.1)) else true)
          (map_to_list s).

(** The two fields [vclusterBaseArgs] reads are nil or strings. *)
Definition targetingTyped (d : ResourceData Time) : bool :=
  fieldTyped d "namespace" TypeString && fieldTyped d "context" TypeString.

(** The [ValidateDiagFunc] of [api_version] in [kubernetesResource]
    (lines 436-446); [val] is an [interface{}], [None] when nil.  The
    [cty.Path] argument is not used. *)
Definition validateApiVersion (val : option (Value Time)) : Outcome Diagnostics :=
  apiVersion <- match val with
                | Some v => assertString v
                | None => Panic
                end ;
  if decide (apiVersion = "client.authentication.k8s.io/v1alpha1") then
    Return [ {| DSeverity := Warning;
                Summary := "v1alpha1 of the client authentication API has been removed, use v1beta1 or above";
                Detail := "v1alpha1 of the client authentication API is removed in Kubernetes client versions 1.24 and above. You may need to update your exec plugin to use the latest version." |} ]
  else Return [].

(** Two records make an operation run alike: on the one it returns with
    given diagnostics and commands run exactly when it does on the other. *)
Definition sameRun (op : Operation) (d1 d2 : ResourceData Time) (h : list Cmd) : Prop :=
  forall diags h',
    (exists d', op d1 h = Return (diags, d', h')) <->
    (exists d', op d2 h = Return (diags, d', h')).

End Declarations.

(** ** Sample records *)

(** The record of the specification's Create example. *)
Definition exampleFields {Time : Type} : gmap string (Value Time) :=
  list_to_map [ ("name", VString "dev1"); ("distro", VString "k3s");
                ("isolate", VBool true); ("namespace", VString "team-a") ].

(** The same record when every field the operations read is present, the
    unset ones with the zero value of their type. *)
Definition zeroFilledFields {Time : Type} : gmap string (Value Time) :=
  list_to_map [ ("name", VString "dev1"); ("distro", VString "k3s");
                ("isolate", VBool true); ("namespace", VString "team-a");
                ("context", VString ""); ("kubernetes_version", VString "");
                ("expose", VBool false); ("expose_local", VBool false);
                ("disable_ingress_sync", VBool false);
                ("create_namespace", VBool false) ].


(** A record as an import leaves it: no name field yet. *)
Definition importedFields {Time : Type} : gmap string (Value Time) :=
  list_to_map [ ("namespace", VString "team-a") ].

(** A name that reads like the isolate flag. *)
Definition flagNamedFields {Time : Type} : gmap string (Value Time) :=
  list_to_map [ ("name", VString "--isolate=true"); ("isolate", VBool true) ].



(** Entries of a [list] output: dev1 twice, another cluster in between. *)
Definition exampleEntries : list (ListEntry Z) :=
  [ {| Name := "dev1"; Namespace := "team-a"; Status := "Pending";
       Created := 1670555530%Z; Context := "" |};
    {| Name := "dev2"; Namespace := "team-b"; Status := "Running";
       Created := 1670555531%Z; Context := "" |};
    {| Name := "dev1"; Namespace := "team-a"; Status := "Running";
       Created := 1670555532%Z; Context := "" |} ].

(** The external tool succeeding, and failing, on every command. *)
Definition toolSucceeds (output : string) : list Cmd -> Cmd -> string * option string :=
  fun _ _ => (output, None).

Definition toolFails (output err : string) : list Cmd -> Cmd -> string * option string :=
  fun _ _ => (output, Some err).

(** The decoder yielding given entries, and failing, on every output. *)
Definition decodesTo {Time : Type} (entries : list (ListEntry Time))
    : string -> string + list (ListEntry Time) :=
  fun _ => inr entries.

Definition decodeFails {Time : Type} (err : string)
    : string -> string + list (ListEntry Time) :=
  fun _ => inl err.

(** * Properties *)

(** Membership in a list that is written out. *)
Ltac find_in_list := simpl; repeat first [left; reflexivity | right].

(** Two tokens that differ in a character that is written out. *)
Ltac tokens_differ :=
  let E := fresh "E" in
  intros E;
  repeat match goal with b : bool |- _ => destruct b end;
  simpl in E; discriminate E.

Section Properties.

#[local] Set Default Proof Using "Type".

Context {Time : Type} `{EqDecision Time}.
Variable zeroTime : Time.
Variable CombinedOutput : list Cmd -> Cmd -> string * option string.
Variable Unmarshal : string -> string + list (ListEntry Time).

Abbreviation Create := (resourceVClusterCreate CombinedOutput).
Abbreviation Read := (resourceVClusterRead zeroTime CombinedOutput Unmarshal).
Abbreviation Delete := (resourceVClusterDelete CombinedOutput).

Implicit Types (d : ResourceData Time) (h : list Cmd) (args : list string).

(** *** The argument vectors in closed form *)

Lemma wellTyped_field d key ty :
  wellTyped d = true -> In (key, ty) readFields -> fieldTyped d key ty = true.
Proof.
  unfold wellTyped. rewrite forallb_forall. intros Hall Hin.
  apply (Hall (key, ty) Hin).
Qed.

Lemma appendIfString_typed d key mk args :
  fieldTyped d key TypeString = true ->
  appendIfString d key mk args =
  Return (args ++ if decide (stringField d key = "") then [] else mk (stringField d key)).
Proof.
  unfold fieldTyped, appendIfString, stringField.
  destruct (Get d key) as [[s| | |]|]; simpl; try discriminate; intros _.
  - destruct (decide (s = "")); [by rewrite app_nil_r | done].
  - by rewrite app_nil_r.
Qed.

Lemma appendIfBool_typed d key flag args :
  fieldTyped d key TypeBool = true ->
  appendIfBool d key flag args = Return (args ++ boolFlag d key flag).
Proof.
  unfold fieldTyped, appendIfBool, boolFlag.
  destruct (Get d key) as [[| b | |]|]; simpl; try discriminate; intros _.
  - done.
  - by rewrite app_nil_r.
Qed.

Lemma vclusterBaseArgs_typed d args :
  wellTyped d = true ->
  vclusterBaseArgs d args = Return (args ++ targetingFlags d).
Proof.
  intros Hd. unfold vclusterBaseArgs, targetingFlags, targetingFlag.
  rewrite appendIfString_typed by (apply wellTyped_field; [assumption | find_in_list]).
  simpl.
  rewrite appendIfString_typed by (apply wellTyped_field; [assumption | find_in_list]).
  by rewrite <- app_assoc.
Qed.

Lemma createArgs_typed d name :
  wellTyped d = true ->
  createArgs d name =
  Return (createVector d name).
Proof.
  intros Hd. unfold createArgs, createVector.
  rewrite vclusterBaseArgs_typed by done. simpl.
  rewrite appendIfString_typed by (apply wellTyped_field; [assumption | find_in_list]). simpl.
  do 5 (rewrite appendIfBool_typed by (apply wellTyped_field; [assumption | find_in_list]); simpl).
  rewrite appendIfString_typed by (apply wellTyped_field; [assumption | find_in_list]). simpl.
  unfold createFlags, stringFlag. simpl.
  rewrite app_nil_r.
  by rewrite <- !app_assoc.
Qed.

Lemma GetString_name d name :
  Get d "name" = Some (VString name) -> GetString d "name" = Return name.
Proof. unfold GetString. by intros ->. Qed.

(** *** The operations in closed form *)

Lemma Create_run d h name :
  wellTyped d = true -> Get d "name" = Some (VString name) ->
  Create d h =
  let cmd := mkCmd "vcluster" (createVector d name) in
  Return (match CombinedOutput h cmd with
          | (output, Some _) => (commandFailed (createVector d name) output, d)
          | (_, None) => ([], Set_ (SetId d name) "name" (VString name))
          end, h ++ [cmd]).
Proof.
  intros Hd Hname. unfold resourceVClusterCreate.
  rewrite (GetString_name _ _ Hname). simpl.
  rewrite createArgs_typed by done. simpl.
  by destruct (CombinedOutput h _) as [output [err|]].
Qed.

Lemma Read_run d h :
  wellTyped d = true ->
  Read d h =
  let cmd := mkCmd "vcluster" (readVector d) in
  Return (match CombinedOutput h cmd with
          | (output, Some _) => (commandFailed (readVector d) output, d)
          | (output, None) =>
              match Unmarshal output with
              | inl err => (FromErr err, d)
              | inr entries =>
                  let entry := scanEntries zeroTime (Id d) entries in
                  if decide (entry = zeroListEntry zeroTime) then ([], SetId d "")
                  else ([], Set_ (Set_ (Set_ d "name" (VString (Name entry)))
                                       "status" (VString (Status entry)))
                                 "created" (VTime (Created entry)))
              end
          end, h ++ [cmd]).
Proof.
  intros Hd. unfold resourceVClusterRead.
  rewrite vclusterBaseArgs_typed by done. simpl.
  destruct (CombinedOutput h _) as [output [err|]]; [done|].
  destruct (Unmarshal output) as [err|entries]; [done|].
  by destruct (decide _).
Qed.

Lemma Delete_run d h name :
  wellTyped d = true -> Get d "name" = Some (VString name) ->
  Delete d h =
  let cmd := mkCmd "vcluster" (deleteVector d name) in
  Return (match CombinedOutput h cmd with
          | (output, Some _) => (commandFailed (deleteVector d name) output, d)
          | (_, None) => ([], d)
          end, h ++ [cmd]).
Proof.
  intros Hd Hname. unfold resourceVClusterDelete.
  rewrite (GetString_name _ _ Hname). simpl.
  rewrite vclusterBaseArgs_typed by done. simpl.
  by destruct (CombinedOutput h _) as [output [err|]].
Qed.

Lemma Create_invokes d h name :
  wellTyped d = true -> Get d "name" = Some (VString name) ->
  invokes Create d h (createVector d name).
Proof.
  intros Hd Hname. unfold invokes. rewrite (Create_run _ _ _ Hd Hname). simpl.
  destruct (CombinedOutput h _) as [output [err|]]; eauto.
Qed.

Lemma Read_invokes d h :
  wellTyped d = true -> invokes Read d h (readVector d).
Proof.
  intros Hd. unfold invokes. rewrite (Read_run _ _ Hd). simpl.
  destruct (match _ with (_, _) => _ end) as [diags d']. eauto.
Qed.

Lemma Delete_invokes d h name :
  wellTyped d = true -> Get d "name" = Some (VString name) ->
  invokes Delete d h (deleteVector d name).
Proof.
  intros Hd Hname. unfold invokes. rewrite (Delete_run _ _ _ Hd Hname). simpl.
  destruct (CombinedOutput h _) as [output [err|]]; eauto.
Qed.


(** *** Order of the flags *)

Lemma prefix_flag (flag value : string) :
  String.prefix (flag +:+ "=") (flag +:+ "=" +:+ value) = true.
Proof.
  induction flag as [|c flag IH]; simpl.
  - by destruct value.
  - by destruct (Ascii.ascii_dec c c).
Qed.

Lemma stringFlag_isFlagOf d key flag names :
  In flag names ->
  Forall (fun t => isFlagOf names t = true) (stringFlag d key flag).
Proof.
  intros Hin. unfold stringFlag. destruct (decide _); constructor; [|constructor].
  unfold isFlagOf. apply existsb_exists. exists flag. split; [done|].
  apply prefix_flag.
Qed.

Lemma boolFlag_isFlagOf d key flag names :
  In flag names ->
  Forall (fun t => isFlagOf names t = true) (boolFlag d key flag).
Proof.
  intros Hin. unfold boolFlag.
  destruct (Get d key) as [[| b | |]|]; constructor; [|constructor].
  unfold isFlagOf. apply existsb_exists. exists flag. split; [done|].
  apply prefix_flag.
Qed.

Lemma createFlags_isFlagOf d :
  Forall (fun t => isFlagOf createFlagNames t = true) (createFlags d).
Proof.
  unfold createFlags, createFlagNames.
  apply Forall_app; split; [apply stringFlag_isFlagOf; by left|].
  apply Forall_app; split.
  - apply List.Forall_flat_map, List.Forall_forall. intros [key flag] Hin.
    apply boolFlag_isFlagOf. right. apply in_or_app. left.
    by apply (in_map snd) in Hin.
  - apply stringFlag_isFlagOf. right. apply in_or_app. right. by left.
Qed.

(** *** Counting tokens *)

Lemma occurrences_app token args args' :
  occurrences token (args ++ args') = occurrences token args + occurrences token args'.
Proof. apply count_occ_app. Qed.

Lemma occurrences_absent token args :
  ~ In token args -> occurrences token args = 0.
Proof. apply count_occ_not_In. Qed.

Lemma occurrences_one token : occurrences token [token] = 1.
Proof. unfold occurrences. by rewrite count_occ_cons_eq. Qed.

Lemma occurrences_boolFlag_same d key flag b :
  Get d key = Some (VBool b) ->
  occurrences (flag +:+ "=" +:+ fmtBool b) (boolFlag d key flag) = 1.
Proof. unfold boolFlag. intros ->. apply occurrences_one. Qed.

Lemma occurrences_boolFlag_other d key flag token :
  (forall b, flag +:+ "=" +:+ fmtBool b <> token) ->
  occurrences token (boolFlag d key flag) = 0.
Proof.
  intros Hne. apply occurrences_absent. unfold boolFlag.
  destruct (Get d key) as [[| b | |]|]; simpl; try (by intros []).
  intros [E|[]]. by apply (Hne b).
Qed.

Lemma occurrences_stringFlag_other d key flag token :
  (forall value, flag +:+ "=" +:+ value <> token) ->
  occurrences token (stringFlag d key flag) = 0.
Proof.
  intros Hne. apply occurrences_absent. unfold stringFlag.
  destruct (decide _); simpl; [by intros []|].
  intros [E|[]]. by apply (Hne _ E).
Qed.

Lemma occurrences_createFlags d key flag b :
  In (key, flag) boolFlags -> Get d key = Some (VBool b) ->
  occurrences (flag +:+ "=" +:+ fmtBool b) (createFlags d) = 1.
Proof.
  intros Hin Hget. unfold createFlags, boolFlags in *.
  cbn [flat_map fst snd]. rewrite !occurrences_app.
  simpl in Hin.
  destruct Hin as [E|[E|[E|[E|[E|[]]]]]]; injection E as <- <-;
    rewrite (occurrences_boolFlag_same _ _ _ _ Hget);
    rewrite !occurrences_stringFlag_other by (intros ?; tokens_differ);
    rewrite !occurrences_boolFlag_other by (intros ?; tokens_differ);
    reflexivity.
Qed.




(** *** Tokens that begin like the distro flag *)




(** *** The scan of Read *)

Lemma scan_step id (entries : list (ListEntry Time)) (seen : ListEntry Time) :
  fold_left (fun resourceEntry entry =>
               if decide (Name entry = id) then entry else resourceEntry)
            entries seen = seen /\ noMatch id entries
  \/ exists entry, lastMatch id entries entry /\
       fold_left (fun resourceEntry entry =>
                    if decide (Name entry = id) then entry else resourceEntry)
                 entries seen = entry.
Proof.
  revert seen. induction entries as [|first entries IH]; intros seen; simpl.
  - left. split; [done | constructor].
  - destruct (decide (Name first = id)) as [Hfirst|Hfirst].
    + right. destruct (IH first) as [[-> Hnone] | (entry & Hlast & ->)].
      * exists first. split; [|done]. by exists [], entries.
      * exists entry. split; [|done].
        destruct Hlast as (before & after & -> & Hname & Hafter).
        by exists (first :: before), after.
    + destruct (IH seen) as [[-> Hnone] | (entry & Hlast & ->)].
      * left. split; [done | by constructor].
      * right. exists entry. split; [|done].
        destruct Hlast as (before & after & -> & Hname & Hafter).
        by exists (first :: before), after.
Qed.

Lemma lastMatch_unique id (entries : list (ListEntry Time)) entry entry' :
  lastMatch id entries entry -> lastMatch id entries entry' -> entry = entry'.
Proof.
  intros (before & after & -> & Hname & Hafter) (before' & after' & E & Hname' & Hafter').
  revert before' E. induction before as [|x before IH]; intros [|x' before']; simpl; intros E.
  - by injection E.
  - injection E as <- ->. apply Forall_app in Hafter as [_ Hafter].
    inversion Hafter; contradiction.
  - injection E as -> <-. apply Forall_app in Hafter' as [_ Hafter'].
    inversion Hafter'; contradiction.
  - injection E as _ E. by apply (IH before').
Qed.

Lemma lastMatch_noMatch id (entries : list (ListEntry Time)) entry :
  lastMatch id entries entry -> noMatch id entries -> False.
Proof.
  intros (before & after & -> & Hname & _) Hnone.
  apply Forall_app in Hnone as [_ Hnone]. inversion Hnone; contradiction.
Qed.

Lemma scanEntries_lastMatch id (entries : list (ListEntry Time)) entry :
  lastMatch id entries entry -> scanEntries zeroTime id entries = entry.
Proof.
  intros Hlast. unfold scanEntries.
  destruct (scan_step id entries (zeroListEntry zeroTime))
    as [[_ Hnone] | (entry' & Hlast' & ->)].
  - destruct (lastMatch_noMatch _ _ _ Hlast Hnone).
  - by apply (lastMatch_unique id entries).
Qed.

Lemma scanEntries_noMatch id (entries : list (ListEntry Time)) :
  noMatch id entries -> scanEntries zeroTime id entries = zeroListEntry zeroTime.
Proof.
  intros Hnone. unfold scanEntries.
  destruct (scan_step id entries (zeroListEntry zeroTime))
    as [[-> _] | (entry & Hlast & _)]; [done|].
  destruct (lastMatch_noMatch _ _ _ Hlast Hnone).
Qed.

Lemma Read_decoded d h output entries :
  wellTyped d = true ->
  CombinedOutput h (mkCmd "vcluster" (readVector d)) = (output, None) ->
  Unmarshal output = inr entries ->
  Read d h =
  Return (let entry := scanEntries zeroTime (Id d) entries in
          if decide (entry = zeroListEntry zeroTime) then ([], SetId d "")
          else ([], Set_ (Set_ (Set_ d "name" (VString (Name entry)))
                               "status" (VString (Status entry)))
                         "created" (VTime (Created entry))),
          h ++ [mkCmd "vcluster" (readVector d)]).
Proof.
  intros Hd Hrun Hdecode. rewrite (Read_run _ _ Hd). simpl.
  by rewrite Hrun, Hdecode.
Qed.

(** C1. In the vector Create runs, the targeting flags ([--namespace <ns>]
    then [--context <ctx>], each present only for a non-empty field) follow
    the head [create <name> --connect=false] and come before every flag
    Create derives from the fields of the record; Delete runs
    [delete <name>] followed by the targeting flags; Read runs
    [list --output json] followed by the targeting flags. *)
Theorem targeting_flags_position d h name :
  wellTyped d = true -> Get d "name" = Some (VString name) ->
  (exists flags,
      Forall (fun t => isFlagOf createFlagNames t = true) flags /\
      invokes Create d h (["create"; name; "--connect=false"] ++ targetingFlags d ++ flags))
  /\ invokes Delete d h (["delete"; name] ++ targetingFlags d)
  /\ invokes Read d h (["list"; "--output"; "json"] ++ targetingFlags d).
Proof.
  intros Hd Hname. split; [|split].
  - exists (createFlags d). split; [apply createFlags_isFlagOf|].
    by apply Create_invokes.
  - by apply Delete_invokes.
  - by apply Read_invokes.
Qed.

(** With the unset booleans present and false, their flags follow. *)
Example create_zero_filled_vector (id : string) h :
  invokes Create (mkResourceData id (zeroFilledFields (Time := Time))) h
    ["create"; "dev1"; "--connect=false"; "--namespace"; "team-a";
     "--distro=k3s"; "--isolate=true"; "--expose=false"; "--expose-local=false";
     "--disable-ingress-sync=false"; "--create-namespace=false"].
Proof.
  assert (createVector (mkResourceData id (zeroFilledFields (Time := Time))) "dev1" =
          ["create"; "dev1"; "--connect=false"; "--namespace"; "team-a";
           "--distro=k3s"; "--isolate=true"; "--expose=false"; "--expose-local=false";
           "--disable-ingress-sync=false"; "--create-namespace=false"]) as <-
    by (vm_compute; reflexivity).
  apply Create_invokes; reflexivity.
Qed.


(** C3 (amended). When a boolean field of Create is present, with value
    true or false, the vector Create runs contains the token
    [--<flagname>=<bool>] of that field exactly once, provided neither the
    name nor a targeting flag or value is itself that token. *)
Theorem bool_flag_once d h name key flag b :
  wellTyped d = true -> Get d "name" = Some (VString name) ->
  In (key, flag) boolFlags -> Get d key = Some (VBool b) ->
  ~ In (flag +:+ "=" +:+ fmtBool b) (name :: targetingFlags d) ->
  exists args,
    invokes Create d h args /\
    occurrences (flag +:+ "=" +:+ fmtBool b) args = 1.
Proof.
  intros Hd Hname Hin Hget Hfresh.
  exists (createVector d name). split; [by apply Create_invokes|].
  unfold createVector. rewrite !occurrences_app.
  rewrite (occurrences_createFlags _ _ _ _ Hin Hget).
  rewrite (occurrences_absent _ (targetingFlags d)) by (intros Ht; apply Hfresh; by right).
  rewrite occurrences_absent; [done|].
  simpl. intros [E|[E|[E|[]]]].
  - revert E. simpl in Hin.
    destruct Hin as [Hk|[Hk|[Hk|[Hk|[Hk|[]]]]]]; injection Hk as <- <-; tokens_differ.
  - apply Hfresh. by left.
  - revert E. simpl in Hin.
    destruct Hin as [Hk|[Hk|[Hk|[Hk|[Hk|[]]]]]]; injection Hk as <- <-; tokens_differ.
Qed.



(** C6. When the decoded list holds no entry whose [Name] is the tracked
    identifier, Read clears the identifier, returns no diagnostic, and
    leaves every field of the record as it was. *)
Theorem read_absent_clears_id d h output entries :
  wellTyped d = true ->
  CombinedOutput h (mkCmd "vcluster" (readVector d)) = (output, None) ->
  Unmarshal output = inr entries ->
  noMatch (Id d) entries ->
  exists d',
    Read d h = Return ([], d', h ++ [mkCmd "vcluster" (readVector d)]) /\
    Id d' = "" /\
    fields d' = fields d.
Proof.
  intros Hd Hrun Hdecode Hnone.
  rewrite (Read_decoded _ _ _ _ Hd Hrun Hdecode). simpl.
  rewrite (scanEntries_noMatch _ _ Hnone).
  destruct (decide _) as [_|]; [|done].
  by exists (SetId d "").
Qed.

(** C7. A failure leaves the record as it was.  When the command of Create
    fails, Create returns one error diagnostic whose summary is the command
    line and whose detail is the raw output, and the record, identifier
    included, is unchanged.  When the output of the command of Read does not
    decode, Read returns the error diagnostic of the decode error, and the
    record is unchanged.  Whenever one of the four operations returns a
    diagnostic, the record is unchanged. *)
Theorem failures_leave_record d h :
  wellTyped d = true ->
  (forall name output err,
      Get d "name" = Some (VString name) ->
      CombinedOutput h (mkCmd "vcluster" (createVector d name)) = (output, Some err) ->
      Create d h =
      Return ([ {| DSeverity := Error;
                   Summary := "vcluster " +:+ Join (createVector d name) " ";
                   Detail := output |} ],
              d, h ++ [mkCmd "vcluster" (createVector d name)]))
  /\ (forall output err,
      CombinedOutput h (mkCmd "vcluster" (readVector d)) = (output, None) ->
      Unmarshal output = inl err ->
      Read d h =
      Return ([ {| DSeverity := Error; Summary := err; Detail := "" |} ],
              d, h ++ [mkCmd "vcluster" (readVector d)]))
  /\ (forall op diags d' h',
      In op [Create; Read; resourceVClusterUpdate; Delete] ->
      op d h = Return (diags, d', h') ->
      diags <> [] -> d' = d).
Proof.
  intros Hd. split; [|split].
  - intros name output err Hname Hrun.
    rewrite (Create_run _ _ _ Hd Hname). simpl. by rewrite Hrun.
  - intros output err Hrun Hdecode.
    rewrite (Read_run _ _ Hd). simpl. by rewrite Hrun, Hdecode.
  - intros op diags d' h' Hop Hreturn Hdiags.
    assert (GetString d "name" = Panic \/ exists name, Get d "name" = Some (VString name))
      as Hname.
    { pose proof (wellTyped_field d "name" TypeString Hd ltac:(find_in_list)) as Hty.
      unfold fieldTyped in Hty. unfold GetString.
      destruct (Get d "name") as [[name| | |]|]; try discriminate Hty; eauto. }
    simpl in Hop. destruct Hop as [<-|[<-|[<-|[<-|[]]]]].
    + destruct Hname as [Hpanic|[name Hname]].
      { unfold resourceVClusterCreate in Hreturn. by rewrite Hpanic in Hreturn. }
      rewrite (Create_run _ _ _ Hd Hname) in Hreturn. simpl in Hreturn.
      destruct (CombinedOutput h _) as [output [err|]];
        injection Hreturn as <- <- <-; done.
    + rewrite (Read_run _ _ Hd) in Hreturn. simpl in Hreturn.
      destruct (CombinedOutput h _) as [output [err|]];
        [by injection Hreturn as <- <- <-|].
      destruct (Unmarshal output) as [err|entries];
        [by injection Hreturn as <- <- <-|].
      destruct (decide _); injection Hreturn as <- <- <-; done.
    + unfold resourceVClusterUpdate in Hreturn. by injection Hreturn as <- <- <-.
    + destruct Hname as [Hpanic|[name Hname]].
      { unfold resourceVClusterDelete in Hreturn. by rewrite Hpanic in Hreturn. }
      rewrite (Delete_run _ _ _ Hd Hname) in Hreturn. simpl in Hreturn.
      destruct (CombinedOutput h _) as [output [err|]];
        injection Hreturn as <- <- <-; done.
Qed.

(** C8. Update, on every record, returns no diagnostic, returns the record and
    the list of commands run as they were, and so runs no command. *)
Theorem update_is_noop d h :
  resourceVClusterUpdate d h = Return ([], d, h)
  /\ forall args, ~ invokes resourceVClusterUpdate d h args.
Proof.
  split; [reflexivity|].
  intros args (diags & d' & Hreturn). injection Hreturn as _ _ Hran.
  apply (f_equal length) in Hran. rewrite length_app in Hran. simpl in Hran. lia.
Qed.

(** C9. For a non-empty tracked identifier and a decoded list, Read clears
    the identifier exactly when no entry has the identifier as its [Name].
    For any identifier, when an entry matches and the zero-value check of
    Read still takes the scan for an absence, the identifier is the empty
    string and the last matching entry is the zero-valued entry. *)
Theorem sentinel_exact d h output entries :
  wellTyped d = true ->
  CombinedOutput h (mkCmd "vcluster" (readVector d)) = (output, None) ->
  Unmarshal output = inr entries ->
  (Id d <> "" ->
   exists d',
     Read d h = Return ([], d', h ++ [mkCmd "vcluster" (readVector d)]) /\
     (Id d' = "" <-> noMatch (Id d) entries))
  /\ (forall entry,
      lastMatch (Id d) entries entry ->
      scanEntries zeroTime (Id d) entries = zeroListEntry zeroTime ->
      Id d = "" /\ entry = zeroListEntry zeroTime).
Proof.
  intros Hd Hrun Hdecode. split.
  - intros Hid. rewrite (Read_decoded _ _ _ _ Hd Hrun Hdecode). simpl.
    unfold scanEntries.
    destruct (scan_step (Id d) entries (zeroListEntry zeroTime))
      as [[-> Hnone] | (entry & Hlast & ->)].
    + destruct (decide _) as [_|]; [|done].
      exists (SetId d ""). by repeat split.
    + pose proof Hlast as (before & after & _ & Hname & _).
      destruct (decide (entry = zeroListEntry zeroTime)) as [->|_].
      { simpl in Hname. by destruct Hid. }
      eexists. split; [reflexivity|]. simpl. split.
      * intros Hcleared. by destruct Hid.
      * intros Hnone. destruct (lastMatch_noMatch _ _ _ Hlast Hnone).
  - intros entry Hlast Hzero.
    rewrite (scanEntries_lastMatch _ _ _ Hlast) in Hzero. subst entry.
    destruct Hlast as (_ & _ & _ & Hname & _). by split.
Qed.

(** C10 (amended). Delete builds its vector from the name field, not from
    the tracked identifier: it runs [delete <name>] followed by the
    targeting flags, and runs the same vector whatever the identifier is.
    When the identifier differs from the name field it does not occur in
    the vector, provided it is neither the word [delete] nor a targeting
    flag or value. *)
Theorem delete_uses_name_field d h name :
  wellTyped d = true -> Get d "name" = Some (VString name) ->
  invokes Delete d h (["delete"; name] ++ targetingFlags d)
  /\ (forall id, invokes Delete (SetId d id) h (["delete"; name] ++ targetingFlags d))
  /\ (Id d <> name -> ~ In (Id d) ("delete" :: targetingFlags d) ->
      ~ In (Id d) (["delete"; name] ++ targetingFlags d)).
Proof.
  intros Hd Hname. split; [|split].
  - by apply Delete_invokes.
  - intros id. by apply (Delete_invokes (SetId d id)).
  - intros Hdiffers Hfresh [E|[E|Hin]].
    + apply Hfresh. by left.
    + by destruct Hdiffers.
    + apply Hfresh. by right.
Qed.

(** ** Beyond the targeting and scan properties *)

(** *** When the operations return *)

Lemma bind_Return {A B : Type} (m : Outcome A) (k : A -> Outcome B) r :
  bind m k = Return r -> exists a, m = Return a /\ k a = Return r.
Proof. destruct m as [a|]; simpl; [eauto | discriminate]. Qed.

Lemma appendIfString_Return d key mk args r :
  appendIfString d key mk args = Return r -> fieldTyped d key TypeString = true.
Proof.
  unfold appendIfString, fieldTyped.
  destruct (Get d key) as [[| | |]|]; simpl; done.
Qed.

Lemma appendIfBool_Return d key flag args r :
  appendIfBool d key flag args = Return r -> fieldTyped d key TypeBool = true.
Proof.
  unfold appendIfBool, fieldTyped.
  destruct (Get d key) as [[| | |]|]; simpl; done.
Qed.

Lemma GetString_Return d key s :
  GetString d key = Return s -> Get d key = Some (VString s).
Proof.
  unfold GetString. destruct (Get d key) as [[| | |]|]; simpl; try done.
  by intros [= ->].
Qed.

Lemma vclusterBaseArgs_targeting d args :
  targetingTyped d = true ->
  vclusterBaseArgs d args = Return (args ++ targetingFlags d).
Proof.
  unfold targetingTyped. intros [Hns Hctx]%andb_prop.
  unfold vclusterBaseArgs, targetingFlags, targetingFlag.
  rewrite (appendIfString_typed _ _ _ _ Hns). simpl.
  rewrite (appendIfString_typed _ _ _ _ Hctx). simpl.
  by rewrite <- app_assoc.
Qed.

Lemma vclusterBaseArgs_Return d args r :
  vclusterBaseArgs d args = Return r -> targetingTyped d = true.
Proof.
  unfold vclusterBaseArgs, targetingTyped.
  intros (args1 & Hns & (args2 & Hctx & _)%bind_Return)%bind_Return.
  by rewrite (appendIfString_Return _ _ _ _ _ Hns), (appendIfString_Return _ _ _ _ _ Hctx).
Qed.

Lemma wellTyped_targetingTyped d : wellTyped d = true -> targetingTyped d = true.
Proof.
  intros Hd. unfold targetingTyped.
  by rewrite !(wellTyped_field d _ TypeString Hd) by find_in_list.
Qed.

Lemma createArgs_Return d name r :
  Get d "name" = Some (VString name) ->
  createArgs d name = Return r -> wellTyped d = true.
Proof.
  intros Hname. unfold createArgs.
  intros (a0 & [Hns Hctx]%vclusterBaseArgs_Return%andb_prop & H)%bind_Return.
  apply bind_Return in H as (a1 & H1%appendIfString_Return & H).
  apply bind_Return in H as (a2 & H2%appendIfBool_Return & H).
  apply bind_Return in H as (a3 & H3%appendIfBool_Return & H).
  apply bind_Return in H as (a4 & H4%appendIfBool_Return & H).
  apply bind_Return in H as (a5 & H5%appendIfBool_Return & H).
  apply bind_Return in H as (a6 & H6%appendIfBool_Return & H).
  apply bind_Return in H as (a7 & H7%appendIfString_Return & _).
  unfold wellTyped, readFields. cbn [forallb fst snd].
  rewrite Hns, Hctx, H1, H2, H3, H4, H5, H6, H7.
  unfold fieldTyped. by rewrite Hname.
Qed.

Lemma Read_run_targeting d h :
  targetingTyped d = true ->
  Read d h =
  let cmd := mkCmd "vcluster" (readVector d) in
  Return (match CombinedOutput h cmd with
          | (output, Some _) => (commandFailed (readVector d) output, d)
          | (output, None) =>
              match Unmarshal output with
              | inl err => (FromErr err, d)
              | inr entries =>
                  let entry := scanEntries zeroTime (Id d) entries in
                  if decide (entry = zeroListEntry zeroTime) then ([], SetId d "")
                  else ([], Set_ (Set_ (Set_ d "name" (VString (Name entry)))
                                       "status" (VString (Status entry)))
                                 "created" (VTime (Created entry)))
              end
          end, h ++ [cmd]).
Proof.
  intros Hd. unfold resourceVClusterRead.
  rewrite vclusterBaseArgs_targeting by done. simpl.
  destruct (CombinedOutput h _) as [output [err|]]; [done|].
  destruct (Unmarshal output) as [err|entries]; [done|].
  by destruct (decide _).
Qed.

Lemma Delete_run_targeting d h name :
  targetingTyped d = true -> Get d "name" = Some (VString name) ->
  Delete d h =
  let cmd := mkCmd "vcluster" (deleteVector d name) in
  Return (match CombinedOutput h cmd with
          | (output, Some _) => (commandFailed (deleteVector d name) output, d)
          | (_, None) => ([], d)
          end, h ++ [cmd]).
Proof.
  intros Hd Hname. unfold resourceVClusterDelete.
  rewrite (GetString_name _ _ Hname). simpl.
  rewrite vclusterBaseArgs_targeting by done. simpl.
  by destruct (CombinedOutput h _) as [output [err|]].
Qed.

Lemma Create_returns d h r :
  Create d h = Return r ->
  wellTyped d = true /\ exists name, Get d "name" = Some (VString name).
Proof.
  intros Hr. unfold resourceVClusterCreate in Hr.
  apply bind_Return in Hr as (name & Hname%GetString_Return & Hr).
  apply bind_Return in Hr as (args & Hargs & _).
  split; [by apply (createArgs_Return d name args) | by exists name].
Qed.

Lemma Read_returns d h r :
  Read d h = Return r -> targetingTyped d = true.
Proof.
  intros Hr. unfold resourceVClusterRead in Hr.
  apply bind_Return in Hr as (args & Hargs & _).
  by apply (vclusterBaseArgs_Return _ _ _ Hargs).
Qed.

Lemma Delete_returns d h r :
  Delete d h = Return r ->
  targetingTyped d = true /\ exists name, Get d "name" = Some (VString name).
Proof.
  intros Hr. unfold resourceVClusterDelete in Hr.
  apply bind_Return in Hr as (name & Hname%GetString_Return & Hr).
  apply bind_Return in Hr as (args & Hargs & _).
  split; [by apply (vclusterBaseArgs_Return _ _ _ Hargs) | by exists name].
Qed.


(** *** Records that conform to the declared schema *)

Lemma conforms_field (s : gmap string schema.Schema) d key v :
  conforms s d = true -> Get d key = Some v ->
  exists f, s !! key = Some f /\ valueHasType v (schema.Type_ f) = true.
Proof.
  unfold conforms, Get. rewrite forallb_forall. intros Hall Hget.
  apply elem_of_map_to_list, list_elem_of_In in Hget.
  specialize (Hall _ Hget). simpl in Hall.
  destruct (s !! key) as [f|]; [eauto | discriminate].
Qed.

Lemma conforms_wellTyped d :
  conforms resourceVClusterSchema d = true -> wellTyped d = true.
Proof.
  intros Hd. unfold wellTyped. rewrite forallb_forall. intros [key ty] Hin.
  unfold fieldTyped. simpl. destruct (Get d key) as [v|] eqn:Hget; [|done].
  destruct (conforms_field _ _ _ _ Hd Hget) as (f & Hf & Hv).
  simpl in Hin.
  repeat (destruct Hin as [[= <- <-]|Hin];
          [vm_compute in Hf; injection Hf as <-; by destruct v|]).
  destruct Hin.
Qed.

Lemma hasRequired_name d :
  conforms resourceVClusterSchema d = true ->
  hasRequired resourceVClusterSchema d = true ->
  exists name, Get d "name" = Some (VString name).
Proof.
  intros Hd. unfold hasRequired. rewrite forallb_forall. intros Hall.
  destruct (resourceVClusterSchema !! "name") as [f|] eqn:Hf; [|by vm_compute in Hf].
  pose proof Hf as Hin. apply elem_of_map_to_list, list_elem_of_In in Hin.
  specialize (Hall _ Hin). simpl in Hall.
  vm_compute in Hf. injection Hf as <-. simpl in Hall.
  apply bool_decide_eq_true in Hall as [v Hget].
  destruct (conforms_field _ _ _ _ Hd Hget) as (f & Hf & Hv).
  vm_compute in Hf. injection Hf as <-.
  destruct v; try discriminate Hv. eauto.
Qed.

(** X2. On a record whose every value sits under a key of the schema of
    [resourceVCluster] with the type declared there, and whose required
    field holds a value, none of Create, Read and Delete panics: each type
    assertion of the operations agrees with the declaration of its field. *)
Theorem conforming_records_run d h :
  conforms resourceVClusterSchema d = true ->
  hasRequired resourceVClusterSchema d = true ->
  (exists r, Create d h = Return r)
  /\ (exists r, Read d h = Return r)
  /\ (exists r, Delete d h = Return r).
Proof.
  intros Hd Hreq.
  pose proof (conforms_wellTyped _ Hd) as Hty.
  destruct (hasRequired_name _ Hd Hreq) as [name Hname].
  split; [|split].
  - rewrite (Create_run _ _ _ Hty Hname). eauto.
  - rewrite (Read_run _ _ Hty). eauto.
  - rewrite (Delete_run _ _ _ Hty Hname). eauto.
Qed.


(** *** What a call reports and what it writes *)

(** X4. A returning call of Create, Read or Delete has run exactly one
    command, and its diagnostics are decided by that command alone: Create
    and Delete report one error, whose summary is the command line and whose
    detail is the raw output, exactly when the command fails; Read reports
    that error when the command fails, the decode error when the output does
    not decode, and nothing otherwise, be the cluster listed or not. *)
Theorem diagnostics_follow_the_command d h diags d' h' :
  (forall op, In op [Create; Delete] ->
     op d h = Return (diags, d', h') ->
     exists args,
       h' = h ++ [mkCmd "vcluster" args] /\
       diags = match CombinedOutput h (mkCmd "vcluster" args) with
               | (output, Some _) =>
                   [ {| DSeverity := Error;
                        Summary := "vcluster " +:+ Join args " ";
                        Detail := output |} ]
               | (_, None) => []
               end)
  /\ (Read d h = Return (diags, d', h') ->
      exists args,
        h' = h ++ [mkCmd "vcluster" args] /\
        diags = match CombinedOutput h (mkCmd "vcluster" args) with
                | (output, Some _) =>
                    [ {| DSeverity := Error;
                         Summary := "vcluster " +:+ Join args " ";
                         Detail := output |} ]
                | (output, None) =>
                    match Unmarshal output with
                    | inl err => [ {| DSeverity := Error; Summary := err; Detail := "" |} ]
                    | inr _ => []
                    end
                end).
Proof.
  split.
  - intros op Hop Hreturn. simpl in Hop. destruct Hop as [<-|[<-|[]]].
    + destruct (Create_returns _ _ _ Hreturn) as [Hd [name Hname]].
      rewrite (Create_run _ _ _ Hd Hname) in Hreturn. simpl in Hreturn.
      exists (createVector d name).
      destruct (CombinedOutput h _) as [output [err|]];
        by injection Hreturn as <- <- <-.
    + destruct (Delete_returns _ _ _ Hreturn) as [Hd [name Hname]].
      rewrite (Delete_run_targeting _ _ _ Hd Hname) in Hreturn. simpl in Hreturn.
      exists (deleteVector d name).
      destruct (CombinedOutput h _) as [output [err|]];
        by injection Hreturn as <- <- <-.
  - intros Hreturn.
    pose proof (Read_returns _ _ _ Hreturn) as Hd.
    rewrite (Read_run_targeting _ _ Hd) in Hreturn. simpl in Hreturn.
    exists (readVector d).
    destruct (CombinedOutput h _) as [output [err|]];
      [by injection Hreturn as <- <- <-|].
    destruct (Unmarshal output) as [err|entries];
      [by injection Hreturn as <- <- <-|].
    destruct (decide _); by injection Hreturn as <- <- <-.
Qed.

(** X5. Create writes nothing but the identifier: a call that returns
    leaves the record as it was when it reports an error, and otherwise
    returns the record with its identifier set to the name field, every
    field as before.  Delete never writes: the record it returns, identifier
    included, is the one it was given, also when the command succeeds. *)
Theorem create_and_delete_writes d h diags d' h' :
  (Create d h = Return (diags, d', h') ->
   (diags <> [] /\ d' = d)
   \/ (diags = [] /\ exists name, Get d "name" = Some (VString name) /\ d' = SetId d name))
  /\ (Delete d h = Return (diags, d', h') -> d' = d).
Proof.
  split; intros Hreturn.
  - destruct (Create_returns _ _ _ Hreturn) as [Hd [name Hname]].
    rewrite (Create_run _ _ _ Hd Hname) in Hreturn. simpl in Hreturn.
    destruct (CombinedOutput h _) as [output [err|]];
      injection Hreturn as <- <- <-.
    + left. by split.
    + right. split; [done|]. exists name. split; [done|].
      unfold Set_, SetId. simpl. f_equal. by apply insert_id.
  - destruct (Delete_returns _ _ _ Hreturn) as [Hd [name Hname]].
    rewrite (Delete_run_targeting _ _ _ Hd Hname) in Hreturn. simpl in Hreturn.
    destruct (CombinedOutput h _) as [output [err|]];
      by injection Hreturn as <- <- <-.
Qed.

Lemma targetingFlags_same d d' :
  Get d' "namespace" = Get d "namespace" -> Get d' "context" = Get d "context" ->
  targetingFlags d' = targetingFlags d.
Proof.
  intros Hns Hctx. unfold targetingFlags, targetingFlag, stringField.
  by rewrite Hns, Hctx.
Qed.

(** X6. Read writes only name, status and created, and only to the values
    of an entry named like the identifier: in the record a returning call
    gives back every other field is as before, so the targeting flags are
    the same; the identifier is as before, or cleared with every field as
    before; and the name field is as before or equal to the identifier. *)
Theorem read_writes d h diags d' h' :
  Read d h = Return (diags, d', h') ->
  (forall key, ~ In key ["name"; "status"; "created"] -> Get d' key = Get d key)
  /\ targetingFlags d' = targetingFlags d
  /\ (Id d' = Id d \/ (Id d' = "" /\ fields d' = fields d))
  /\ (Get d' "name" = Get d "name" \/ Get d' "name" = Some (VString (Id d'))).
Proof.
  intros Hreturn.
  pose proof (Read_returns _ _ _ Hreturn) as Hd.
  rewrite (Read_run_targeting _ _ Hd) in Hreturn. simpl in Hreturn.
  assert (d' = d \/ d' = SetId d "" \/
          exists entry, Name entry = Id d /\
            d' = Set_ (Set_ (Set_ d "name" (VString (Name entry)))
                            "status" (VString (Status entry)))
                      "created" (VTime (Created entry))) as Hcases.
  { destruct (CombinedOutput h _) as [output [err|]];
      [injection Hreturn as <- <- <-; by left|].
    destruct (Unmarshal output) as [err|entries];
      [injection Hreturn as <- <- <-; by left|].
    unfold scanEntries in Hreturn.
    destruct (scan_step (Id d) entries (zeroListEntry zeroTime))
      as [[Hscan _] | (entry & (_ & _ & _ & Hname & _) & Hscan)];
      rewrite Hscan in Hreturn.
    - destruct (decide _); [|done]. injection Hreturn as <- <- <-. right. by left.
    - destruct (decide _); injection Hreturn as <- <- <-; [right; by left|].
      right. right. by exists entry. }
  destruct Hcases as [->|[->|(entry & Hname & ->)]].
  - split; [done|]. split; [done|]. split; by left.
  - split; [done|]. split; [done|]. split; [right; by split | by left].
  - assert (forall key, ~ In key ["name"; "status"; "created"] ->
            Get (Set_ (Set_ (Set_ d "name" (VString (Name entry)))
                            "status" (VString (Status entry)))
                      "created" (VTime (Created entry))) key = Get d key) as Hframe.
    { intros key Hkey. unfold Get, Set_. simpl.
      rewrite !lookup_insert_ne; [done|..]; intros <-; apply Hkey; find_in_list. }
    split; [exact Hframe|]. split; [|split].
    + apply targetingFlags_same; apply Hframe;
        intros [E|[E|[E|[]]]]; discriminate E.
    + by left.
    + right. unfold Get, Set_. simpl.
      do 2 (rewrite lookup_insert_ne by done). rewrite lookup_insert_eq.
      by rewrite Hname.
Qed.

(** *** Calls in sequence *)

Lemma Create_result d h diags d' h' :
  Create d h = Return (diags, d', h') ->
  d' = d \/ exists name, Get d "name" = Some (VString name) /\ d' = SetId d name.
Proof.
  intros Hreturn. destruct (Create_returns _ _ _ Hreturn) as [Hd [name Hname]].
  rewrite (Create_run _ _ _ Hd Hname) in Hreturn. simpl in Hreturn.
  destruct (CombinedOutput h _) as [output [err|]];
    injection Hreturn as <- <- <-; [by left|].
  right. exists name. split; [done|].
  unfold Set_, SetId. simpl. f_equal. by apply insert_id.
Qed.

Lemma Read_result d h diags d' h' :
  Read d h = Return (diags, d', h') ->
  d' = d \/ d' = SetId d "" \/
  exists entry, Name entry = Id d /\
    d' = Set_ (Set_ (Set_ d "name" (VString (Name entry)))
                    "status" (VString (Status entry)))
              "created" (VTime (Created entry)).
Proof.
  intros Hreturn. pose proof (Read_returns _ _ _ Hreturn) as Hd.
  rewrite (Read_run_targeting _ _ Hd) in Hreturn. simpl in Hreturn.
  destruct (CombinedOutput h _) as [output [err|]];
    [injection Hreturn as <- <- <-; by left|].
  destruct (Unmarshal output) as [err|entries];
    [injection Hreturn as <- <- <-; by left|].
  unfold scanEntries in Hreturn.
  destruct (scan_step (Id d) entries (zeroListEntry zeroTime))
    as [[Hscan _] | (entry & (_ & _ & _ & Hname & _) & Hscan)];
    rewrite Hscan in Hreturn.
  - destruct (decide _); [|done]. injection Hreturn as <- <- <-. right. by left.
  - destruct (decide _); injection Hreturn as <- <- <-; [right; by left|].
    right. right. by exists entry.
Qed.

Lemma Delete_result d h diags d' h' :
  Delete d h = Return (diags, d', h') -> d' = d.
Proof.
  intros Hreturn. destruct (Delete_returns _ _ _ Hreturn) as [Hd [name Hname]].
  rewrite (Delete_run_targeting _ _ _ Hd Hname) in Hreturn. simpl in Hreturn.
  destruct (CombinedOutput h _) as [output [err|]];
    by injection Hreturn as <- <- <-.
Qed.

Lemma Get_observed d name status created key :
  Get (Set_ (Set_ (Set_ d "name" name) "status" status) "created" created) key =
  if decide (key = "created") then Some created
  else if decide (key = "status") then Some status
  else if decide (key = "name") then Some name
  else Get d key.
Proof.
  unfold Get, Set_. simpl.
  destruct (decide (key = "created")) as [->|]; [apply lookup_insert_eq|].
  rewrite lookup_insert_ne by done.
  destruct (decide (key = "status")) as [->|]; [apply lookup_insert_eq|].
  rewrite lookup_insert_ne by done.
  destruct (decide (key = "name")) as [->|]; [apply lookup_insert_eq|].
  by rewrite lookup_insert_ne.
Qed.

Lemma wellTyped_observed d name status created :
  wellTyped d = true ->
  wellTyped (Set_ (Set_ (Set_ d "name" (VString name)) "status" status)
                  "created" created) = true.
Proof.
  unfold wellTyped. rewrite !forallb_forall. intros Hd [key ty] Hin.
  specialize (Hd _ Hin). simpl in *. unfold fieldTyped in *.
  rewrite Get_observed.
  repeat (destruct Hin as [[= <- <-]|Hin]; [by simpl|]).
  destruct Hin.
Qed.

Lemma targetingTyped_observed d name status created :
  targetingTyped (Set_ (Set_ (Set_ d "name" name) "status" status)
                       "created" created) = targetingTyped d.
Proof. unfold targetingTyped, fieldTyped. by rewrite !Get_observed. Qed.

Lemma targetingFlags_observed d name status created :
  targetingFlags (Set_ (Set_ (Set_ d "name" name) "status" status)
                       "created" created) = targetingFlags d.
Proof. apply targetingFlags_same; by rewrite Get_observed. Qed.

(** X7. The operations keep the types their assertions rely on: from a
    record in which every field they read is nil or of the asserted type,
    the record a returning call of Create, Read, Update or Delete gives back
    is again such a record, and a name field that held a string still holds
    one.  A next call on it does not panic. *)
Theorem operations_keep_types d h op diags d' h' :
  wellTyped d = true ->
  In op [Create; Read; resourceVClusterUpdate; Delete] ->
  op d h = Return (diags, d', h') ->
  wellTyped d' = true
  /\ ((exists name, Get d "name" = Some (VString name)) ->
      exists name', Get d' "name" = Some (VString name')).
Proof.
  intros Hd Hop Hreturn. simpl in Hop. destruct Hop as [<-|[<-|[<-|[<-|[]]]]].
  - destruct (Create_result _ _ _ _ _ Hreturn) as [->|(name & _ & ->)]; by split.
  - destruct (Read_result _ _ _ _ _ Hreturn) as [->|[->|(entry & _ & ->)]];
      [by split | by split |].
    split; [by apply wellTyped_observed|].
    intros _. exists (Name entry). by rewrite Get_observed.
  - injection Hreturn as _ <- _. by split.
  - rewrite (Delete_result _ _ _ _ _ Hreturn). by split.
Qed.

(** X8. Read makes the name field follow the identifier, so that a record
    that has only an identifier (as after an import: the name field may be
    nil) can be deleted: when Read finds an entry named like the identifier,
    other than the zero-valued one, a Delete on the record Read returns runs
    [delete <identifier>] followed by the targeting flags. *)
Theorem read_then_delete_names_identifier d h output entries entry :
  targetingTyped d = true ->
  CombinedOutput h (mkCmd "vcluster" (readVector d)) = (output, None) ->
  Unmarshal output = inr entries ->
  lastMatch (Id d) entries entry ->
  entry <> zeroListEntry zeroTime ->
  exists d1,
    Read d h = Return ([], d1, h ++ [mkCmd "vcluster" (readVector d)]) /\
    invokes Delete d1 (h ++ [mkCmd "vcluster" (readVector d)])
            (["delete"; Id d] ++ targetingFlags d).
Proof.
  intros Hd Hrun Hdecode Hlast Hnonzero.
  rewrite (Read_run_targeting _ _ Hd). simpl. rewrite Hrun, Hdecode.
  rewrite (scanEntries_lastMatch _ _ _ Hlast).
  destruct (decide (entry = zeroListEntry zeroTime)) as [|_]; [done|].
  eexists. split; [reflexivity|].
  destruct Hlast as (_ & _ & _ & Hname & _).
  unfold invokes.
  rewrite (Delete_run_targeting _ _ (Id d)).
  - simpl. unfold deleteVector. rewrite targetingFlags_observed.
    destruct (CombinedOutput (h ++ _) _) as [output' [err|]];
      do 2 eexists; reflexivity.
  - by rewrite targetingTyped_observed.
  - by rewrite Get_observed, Hname.
Qed.

Lemma observed_again d name status created :
  let d1 := Set_ (Set_ (Set_ d "name" name) "status" status) "created" created in
  Set_ (Set_ (Set_ d1 "name" name) "status" status) "created" created = d1.
Proof.
  intros d1.
  assert (forall key,
            Get (Set_ (Set_ (Set_ d1 "name" name) "status" status) "created" created) key
            = Get d1 key) as Hsame.
  { intros key. rewrite Get_observed. unfold d1. rewrite Get_observed.
    by repeat destruct (decide _). }
  destruct d1 as [id1 fields1] eqn:Hd1. unfold Set_ in *. simpl in *.
  f_equal. apply map_eq. exact Hsame.
Qed.

(** X9. Read is idempotent while the tool lists the same entries: when a
    Read finds an entry named like the identifier, other than the
    zero-valued one, a second Read on the record it returns, decoding the
    same entries, runs the same command and returns that record unchanged.
    When a Read finds no such entry and clears the identifier, a second Read
    looks for an entry with the empty name, and returns the cleared record
    unchanged if there is none. *)
Theorem read_twice d h output output' entries :
  targetingTyped d = true ->
  CombinedOutput h (mkCmd "vcluster" (readVector d)) = (output, None) ->
  Unmarshal output = inr entries ->
  CombinedOutput (h ++ [mkCmd "vcluster" (readVector d)])
                 (mkCmd "vcluster" (readVector d)) = (output', None) ->
  Unmarshal output' = inr entries ->
  exists d1,
    Read d h = Return ([], d1, h ++ [mkCmd "vcluster" (readVector d)]) /\
    ((exists entry, lastMatch (Id d) entries entry /\ entry <> zeroListEntry zeroTime)
     \/ (noMatch (Id d) entries /\ noMatch "" entries) ->
     Read d1 (h ++ [mkCmd "vcluster" (readVector d)]) =
     Return ([], d1, (h ++ [mkCmd "vcluster" (readVector d)])
                     ++ [mkCmd "vcluster" (readVector d)])).
Proof.
  intros Hd Hrun Hdecode Hrun' Hdecode'.
  rewrite (Read_run_targeting _ _ Hd). simpl. rewrite Hrun, Hdecode.
  exists (let entry := scanEntries zeroTime (Id d) entries in
          if decide (entry = zeroListEntry zeroTime) then SetId d ""
          else Set_ (Set_ (Set_ d "name" (VString (Name entry)))
                          "status" (VString (Status entry)))
                    "created" (VTime (Created entry))).
  simpl. split; [by destruct (decide _)|].
  intros [(entry & Hlast & Hnonzero) | [Hnone Hempty]].
  - rewrite (scanEntries_lastMatch _ _ _ Hlast).
    destruct (decide (entry = zeroListEntry zeroTime)) as [|_]; [done|].
    rewrite Read_run_targeting by (by rewrite targetingTyped_observed).
    simpl. unfold readVector. rewrite targetingFlags_observed.
    fold (readVector d). rewrite Hrun', Hdecode'.
    rewrite (scanEntries_lastMatch _ _ _ Hlast).
    destruct (decide (entry = zeroListEntry zeroTime)) as [|_]; [done|].
    by rewrite observed_again.
  - rewrite (scanEntries_noMatch _ _ Hnone).
    destruct (decide _) as [_|]; [|done].
    rewrite (Read_run_targeting (SetId d "")) by done.
    simpl. change (readVector (SetId d "")) with (readVector d).
    rewrite Hrun', Hdecode'. rewrite (scanEntries_noMatch _ _ Hempty).
    by destruct (decide _) as [_|].
Qed.


(** X11. Delete followed by Read: a Delete whose command succeeds returns
    the record with its identifier still set; it is the Read after it that
    clears the identifier, when the tool no longer lists the name, and keeps
    it, when the tool still lists an entry of that name other than the
    zero-valued one.  The two calls have run the delete command and then
    the list command. *)
Theorem delete_then_read d h name output output' entries :
  targetingTyped d = true -> Get d "name" = Some (VString name) ->
  CombinedOutput h (mkCmd "vcluster" (deleteVector d name)) = (output, None) ->
  CombinedOutput (h ++ [mkCmd "vcluster" (deleteVector d name)])
                 (mkCmd "vcluster" (readVector d)) = (output', None) ->
  Unmarshal output' = inr entries ->
  exists d2,
    Delete d h = Return ([], d, h ++ [mkCmd "vcluster" (deleteVector d name)]) /\
    Read d (h ++ [mkCmd "vcluster" (deleteVector d name)]) =
    Return ([], d2, h ++ [mkCmd "vcluster" (deleteVector d name);
                          mkCmd "vcluster" (readVector d)]) /\
    (noMatch (Id d) entries -> Id d2 = "" /\ fields d2 = fields d) /\
    (forall entry, lastMatch (Id d) entries entry -> entry <> zeroListEntry zeroTime ->
       Id d2 = Id d /\ Get d2 "status" = Some (VString (Status entry))).
Proof.
  intros Hd Hname Hrun Hrun' Hdecode.
  rewrite (Delete_run_targeting _ _ _ Hd Hname). simpl. rewrite Hrun.
  rewrite (Read_run_targeting _ _ Hd). simpl. rewrite Hrun', Hdecode.
  rewrite <- app_assoc. simpl.
  exists (let entry := scanEntries zeroTime (Id d) entries in
          if decide (entry = zeroListEntry zeroTime) then SetId d ""
          else Set_ (Set_ (Set_ d "name" (VString (Name entry)))
                          "status" (VString (Status entry)))
                    "created" (VTime (Created entry))).
  simpl. split; [done|]. split; [by destruct (decide _)|]. split.
  - intros Hnone. rewrite (scanEntries_noMatch _ _ Hnone).
    by destruct (decide _) as [_|].
  - intros entry Hlast Hnonzero. rewrite (scanEntries_lastMatch _ _ _ Hlast).
    destruct (decide (entry = zeroListEntry zeroTime)) as [|_]; [done|].
    split; [done|]. by rewrite Get_observed.
Qed.

(** *** Fields and entries that play no part *)

Lemma Get_Set_ne d key v other :
  key <> other -> Get (Set_ d key v) other = Get d other.
Proof. intros Hne. unfold Get, Set_. simpl. by apply lookup_insert_ne. Qed.

Lemma vclusterBaseArgs_Set d key v args :
  ~ In key ["namespace"; "context"] ->
  vclusterBaseArgs (Set_ d key v) args = vclusterBaseArgs d args.
Proof.
  intros Hkey. unfold vclusterBaseArgs, appendIfString.
  rewrite !Get_Set_ne; [done|..]; intros ->; apply Hkey; find_in_list.
Qed.

Lemma createArgs_Set d key v name :
  ~ In key (map fst readFields) ->
  createArgs (Set_ d key v) name = createArgs d name.
Proof.
  intros Hkey. unfold createArgs.
  rewrite vclusterBaseArgs_Set by (intros [<-|[<-|[]]]; apply Hkey; find_in_list).
  unfold appendIfString, appendIfBool.
  rewrite !Get_Set_ne; [done|..]; intros ->; apply Hkey; find_in_list.
Qed.

(** X12. A field the operations do not read plays no part in a call.
    Setting any key other than the ten that Create reads (so any of chart,
    chart_version, chart_repo, local_chart_dir and extra_values) leaves the
    command Create runs and the diagnostics it returns as they were; any key
    other than namespace and context does so for Read, and any key other
    than name, namespace and context for Delete: the flags of Create never
    reach the list and delete commands. *)
Theorem unread_fields_play_no_part d h key v :
  (~ In key (map fst readFields) -> sameRun Create (Set_ d key v) d h)
  /\ (~ In key ["namespace"; "context"] -> sameRun Read (Set_ d key v) d h)
  /\ (~ In key ["name"; "namespace"; "context"] -> sameRun Delete (Set_ d key v) d h).
Proof.
  split; [|split]; intros Hkey diags h'.
  - unfold resourceVClusterCreate, GetString.
    rewrite Get_Set_ne by (intros ->; apply Hkey; find_in_list).
    destruct (Get d "name") as [name|]; simpl; [|split; intros [? ?]; discriminate].
    destruct (assertString name) as [s|]; simpl; [|split; intros [? ?]; discriminate].
    rewrite createArgs_Set by done.
    destruct (createArgs d s) as [args|]; simpl; [|split; intros [? ?]; discriminate].
    destruct (CombinedOutput h _) as [output [err|]];
      split; intros [d' [= <- <- <-]]; eauto.
  - unfold resourceVClusterRead. rewrite vclusterBaseArgs_Set by done.
    destruct (vclusterBaseArgs d _) as [args|]; simpl;
      [|split; intros [? ?]; discriminate].
    destruct (CombinedOutput h _) as [output [err|]];
      [split; intros [d' [= <- <- <-]]; eauto|].
    destruct (Unmarshal output) as [err|entries];
      [split; intros [d' [= <- <- <-]]; eauto|].
    simpl. destruct (decide _); split; intros [d' [= <- <- <-]]; eauto.
  - unfold resourceVClusterDelete, GetString.
    rewrite Get_Set_ne by (intros ->; apply Hkey; find_in_list).
    destruct (Get d "name") as [name|]; simpl; [|split; intros [? ?]; discriminate].
    destruct (assertString name) as [s|]; simpl; [|split; intros [? ?]; discriminate].
    rewrite vclusterBaseArgs_Set by (intros [<-|[<-|[]]]; apply Hkey; find_in_list).
    destruct (vclusterBaseArgs d _) as [args|]; simpl;
      [|split; intros [? ?]; discriminate].
    destruct (CombinedOutput h _) as [output [err|]];
      split; intros [d' [= <- <- <-]]; eauto.
Qed.

Lemma scan_from id (entries : list (ListEntry Time)) (seen : ListEntry Time) :
  fold_left (fun resourceEntry entry =>
               if decide (Name entry = id) then entry else resourceEntry)
            entries seen
  = default seen (last (filter (fun entry => Name entry = id) entries)).
Proof.
  revert seen. induction entries as [|first entries IH]; intros seen; [done|].
  simpl. rewrite filter_cons.
  destruct (decide (Name first = id)) as [Hfirst|Hfirst]; [|apply IH].
  rewrite IH, last_cons. by destruct (last _).
Qed.

(** X13. The entry the loop of Read ends with is the last, in the order of
    the output, of the entries named like the identifier, or the
    zero-valued entry when there is none: entries with another name play no
    part, and of several entries with the name the one listed last wins. *)
Theorem scanEntries_last_named id (entries : list (ListEntry Time)) :
  scanEntries zeroTime id entries
  = default (zeroListEntry zeroTime)
            (last (filter (fun entry => Name entry = id) entries))
  /\ scanEntries zeroTime id (filter (fun entry => Name entry = id) entries)
     = scanEntries zeroTime id entries
  /\ forall others named,
       noMatch id others ->
       Forall (fun entry => Name entry = id) named -> named <> [] ->
       forall before, last named = Some (scanEntries zeroTime id (before ++ named ++ others)).
Proof.
  split; [apply scan_from|]. split.
  - unfold scanEntries. rewrite !scan_from. f_equal. f_equal.
    apply list_filter_filter_l. auto.
  - intros others named Hothers Hnamed Hne before.
    unfold scanEntries. rewrite scan_from, !filter_app, !last_app.
    assert (filter (fun entry => Name entry = id) others = []) as ->.
    { clear -Hothers. induction Hothers as [|x l Hx _ IH]; [done|].
      rewrite filter_cons. by destruct (decide _). }
    assert (filter (fun entry => Name entry = id) named = named) as ->.
    { clear -Hnamed. induction Hnamed as [|x l Hx _ IH]; [done|].
      rewrite filter_cons. destruct (decide _); [by rewrite IH | done]. }
    simpl. destruct (last named) as [entry|] eqn:Hlast; [done|].
    apply last_None in Hlast. by destruct Hne.
Qed.

(** *** The check of api_version *)

(** X14. The check of the exec block's api_version never rejects a value:
    on a string it returns no diagnostic, except for
    client.authentication.k8s.io/v1alpha1, spelled exactly so, for which it
    returns one diagnostic, a warning; on a value that is not a string its
    type assertion panics. *)
Theorem api_version_only_warns (val : option (Value Time)) :
  ((exists diags, validateApiVersion val = Return diags) <->
   exists apiVersion, val = Some (VString apiVersion))
  /\ forall diags,
       validateApiVersion val = Return diags ->
       Forall (fun dg => DSeverity dg = Warning) diags
       /\ length diags <= 1
       /\ (diags <> [] <->
           val = Some (VString "client.authentication.k8s.io/v1alpha1")).
Proof.
  unfold validateApiVersion. split.
  - split.
    + intros [diags Hreturn]. destruct val as [[s| | |]|]; try discriminate Hreturn.
      by exists s.
    + intros [s ->]. simpl. destruct (decide _); eauto.
  - intros diags Hreturn.
    destruct val as [[s| | |]|]; try discriminate Hreturn. simpl in Hreturn.
    destruct (decide _) as [->|Hother]; injection Hreturn as <-.
    + split; [by repeat constructor|]. split; [simpl; lia|]. by split.
    + split; [constructor|]. split; [simpl; lia|].
      split; [done|]. intros [= ->]. by destruct Hother.
Qed.

End Properties.

(** * Instances *)

Lemma targeting_flags_position_witness :
  let d := mkResourceData "" (exampleFields (Time := Z)) in
  (exists flags,
      Forall (fun t => isFlagOf createFlagNames t = true) flags /\
      invokes (resourceVClusterCreate (toolSucceeds "")) d []
        (["create"; "dev1"; "--connect=false"] ++ targetingFlags d ++ flags))
  /\ invokes (resourceVClusterDelete (toolSucceeds "")) d []
       (["delete"; "dev1"] ++ targetingFlags d)
  /\ invokes (resourceVClusterRead 0%Z (toolSucceeds "[]") (fun _ => inr [])) d []
       (["list"; "--output"; "json"] ++ targetingFlags d).
Proof.
  intros d.
  destruct (targeting_flags_position 0%Z (toolSucceeds "") (fun _ => inr []) d [] "dev1"
              eq_refl eq_refl) as (Hc & Hd & _).
  destruct (targeting_flags_position 0%Z (toolSucceeds "[]") (fun _ => inr []) d [] "dev1"
              eq_refl eq_refl) as (_ & _ & Hr).
  exact (conj Hc (conj Hd Hr)).
Defined.

Lemma bool_flag_once_witness :
  exists args,
    invokes (resourceVClusterCreate (toolSucceeds ""))
            (mkResourceData "" (exampleFields (Time := Z))) [] args /\
    occurrences "--isolate=true" args = 1.
Proof.
  apply (bool_flag_once (toolSucceeds "") (mkResourceData "" exampleFields) []
           "dev1" "isolate" "--isolate" true);
    [reflexivity | reflexivity | find_in_list | reflexivity |].
  vm_compute. intros [E|[E|[E|[]]]]; discriminate E.
Defined.



Lemma read_absent_clears_id_witness :
  exists d',
    resourceVClusterRead 0%Z (toolSucceeds "[]") (decodesTo [])
      (mkResourceData "dev1" exampleFields) []
    = Return ([], d', [mkCmd "vcluster" ["list"; "--output"; "json";
                                         "--namespace"; "team-a"]]) /\
    Id d' = "" /\
    fields d' = exampleFields.
Proof.
  apply (read_absent_clears_id 0%Z (toolSucceeds "[]") (decodesTo [])
           (mkResourceData "dev1" exampleFields) [] "[]" []);
    [reflexivity | reflexivity | reflexivity | constructor].
Defined.

Lemma failures_leave_record_witness :
  let d := mkResourceData "" (exampleFields (Time := Z)) in
  resourceVClusterCreate (toolFails "already exists" "exit status 1") d []
  = Return ([ {| DSeverity := Error;
                 Summary := "vcluster create dev1 --connect=false --namespace team-a --distro=k3s --isolate=true";
                 Detail := "already exists" |} ],
            d,
            [mkCmd "vcluster" ["create"; "dev1"; "--connect=false"; "--namespace";
                               "team-a"; "--distro=k3s"; "--isolate=true"]])
  /\ resourceVClusterRead 0%Z (toolSucceeds "oops") (decodeFails "invalid character")
       (SetId d "dev1") []
     = Return ([ {| DSeverity := Error; Summary := "invalid character"; Detail := "" |} ],
               SetId d "dev1",
               [mkCmd "vcluster" ["list"; "--output"; "json"; "--namespace"; "team-a"]]).
Proof.
  intros d. split.
  - destruct (failures_leave_record 0%Z (toolFails "already exists" "exit status 1")
                (decodesTo []) d [] eq_refl) as (Hcreate & _ & _).
    exact (Hcreate "dev1" "already exists" "exit status 1" eq_refl eq_refl).
  - destruct (failures_leave_record 0%Z (toolSucceeds "oops")
                (decodeFails "invalid character") (SetId d "dev1") [] eq_refl)
      as (_ & Hread & _).
    exact (Hread "oops" "invalid character" eq_refl eq_refl).
Defined.

Lemma sentinel_exact_witness :
  let d := mkResourceData "dev1" (exampleFields (Time := Z)) in
  exists d',
    resourceVClusterRead 0%Z (toolSucceeds "[...]") (decodesTo exampleEntries) d []
    = Return ([], d', [mkCmd "vcluster" (readVector d)]) /\
    (Id d' = "" <-> noMatch "dev1" exampleEntries).
Proof.
  intros d.
  destruct (sentinel_exact 0%Z (toolSucceeds "[...]") (decodesTo exampleEntries)
              d [] "[...]" exampleEntries eq_refl eq_refl eq_refl) as [Hiff _].
  apply Hiff. discriminate.
Defined.

Lemma delete_uses_name_field_witness :
  let d := mkResourceData "imported" (exampleFields (Time := Z)) in
  invokes (resourceVClusterDelete (toolSucceeds "")) d []
          ["delete"; "dev1"; "--namespace"; "team-a"]
  /\ ~ In "imported" ["delete"; "dev1"; "--namespace"; "team-a"].
Proof.
  intros d.
  destruct (delete_uses_name_field (toolSucceeds "") d [] "dev1" eq_refl eq_refl)
    as (Hrun & _ & Habsent).
  split; [exact Hrun|].
  apply Habsent; [discriminate|].
  vm_compute. intros [E|[E|[E|[]]]]; discriminate E.
Defined.


Lemma conforming_records_run_witness :
  let d := mkResourceData "" (exampleFields (Time := Z)) in
  (exists r, resourceVClusterCreate (toolSucceeds "") d [] = Return r)
  /\ (exists r, resourceVClusterRead 0%Z (toolSucceeds "") (decodesTo []) d [] = Return r)
  /\ (exists r, resourceVClusterDelete (toolSucceeds "") d [] = Return r).
Proof.
  intros d.
  apply (conforming_records_run 0%Z (toolSucceeds "") (decodesTo []) d []);
    vm_compute; reflexivity.
Defined.


Lemma diagnostics_follow_the_command_witness :
  let d := mkResourceData "" (exampleFields (Time := Z)) in
  let vector := ["create"; "dev1"; "--connect=false"; "--namespace"; "team-a";
                 "--distro=k3s"; "--isolate=true"] in
  exists args,
    [mkCmd "vcluster" vector] = [] ++ [mkCmd "vcluster" args] /\
    commandFailed vector "already exists" =
    match toolFails "already exists" "exit status 1" [] (mkCmd "vcluster" args) with
    | (output, Some _) =>
        [ {| DSeverity := Error;
             Summary := "vcluster " +:+ Join args " ";
             Detail := output |} ]
    | (_, None) => []
    end.
Proof.
  intros d vector.
  destruct (diagnostics_follow_the_command 0%Z
              (toolFails "already exists" "exit status 1") (decodesTo []) d []
              (commandFailed vector "already exists") d [mkCmd "vcluster" vector])
    as [Hops _].
  apply (Hops (resourceVClusterCreate (toolFails "already exists" "exit status 1")));
    [find_in_list | reflexivity].
Defined.

Lemma create_and_delete_writes_witness :
  let d := mkResourceData "" (exampleFields (Time := Z)) in
  let d' := Set_ (SetId d "dev1") "name" (VString "dev1") in
  (@nil Diagnostic <> [] /\ d' = d)
  \/ (@nil Diagnostic = [] /\
      exists name, Get d "name" = Some (VString name) /\ d' = SetId d name).
Proof.
  intros d d'.
  destruct (create_and_delete_writes (toolSucceeds "") d [] [] d'
              [mkCmd "vcluster" (createVector d "dev1")]) as [Hcreate _].
  apply Hcreate. reflexivity.
Defined.

Lemma read_writes_witness :
  let d := mkResourceData "dev1" (exampleFields (Time := Z)) in
  let d' := Set_ (Set_ (Set_ d "name" (VString "dev1")) "status" (VString "Running"))
                 "created" (VTime 1670555532%Z) in
  (forall key, ~ In key ["name"; "status"; "created"] -> Get d' key = Get d key)
  /\ targetingFlags d' = targetingFlags d
  /\ (Id d' = Id d \/ (Id d' = "" /\ fields d' = fields d))
  /\ (Get d' "name" = Get d "name" \/ Get d' "name" = Some (VString (Id d'))).
Proof.
  intros d d'.
  apply (read_writes 0%Z (toolSucceeds "[...]") (decodesTo exampleEntries) d [] []
           d' [mkCmd "vcluster" (readVector d)]).
  reflexivity.
Defined.

Lemma operations_keep_types_witness :
  let d := mkResourceData "dev1" (exampleFields (Time := Z)) in
  let d' := Set_ (Set_ (Set_ d "name" (VString "dev1")) "status" (VString "Running"))
                 "created" (VTime 1670555532%Z) in
  wellTyped d' = true
  /\ ((exists name, Get d "name" = Some (VString name)) ->
      exists name', Get d' "name" = Some (VString name')).
Proof.
  intros d d'.
  apply (operations_keep_types 0%Z (toolSucceeds "[...]") (decodesTo exampleEntries)
           d []
           (resourceVClusterRead 0%Z (toolSucceeds "[...]") (decodesTo exampleEntries))
           [] d' [mkCmd "vcluster" (readVector d)]);
    [reflexivity | find_in_list | reflexivity].
Defined.

Lemma read_then_delete_names_identifier_witness :
  let d := mkResourceData "dev1" (importedFields (Time := Z)) in
  let list := mkCmd "vcluster" ["list"; "--output"; "json"; "--namespace"; "team-a"] in
  exists d1,
    resourceVClusterRead 0%Z (toolSucceeds "[...]") (decodesTo exampleEntries) d []
    = Return ([], d1, [list]) /\
    invokes (resourceVClusterDelete (toolSucceeds "[...]")) d1 [list]
            ["delete"; "dev1"; "--namespace"; "team-a"].
Proof.
  intros d list.
  apply (read_then_delete_names_identifier 0%Z (toolSucceeds "[...]")
           (decodesTo exampleEntries) d [] "[...]" exampleEntries
           {| Name := "dev1"; Namespace := "team-a"; Status := "Running";
              Created := 1670555532%Z; Context := "" |});
    [reflexivity | reflexivity | reflexivity | | discriminate].
  eexists [_; _], []. split; [reflexivity|]. split; [reflexivity | constructor].
Defined.

Lemma read_twice_witness :
  let d := mkResourceData "dev1" (exampleFields (Time := Z)) in
  let list := mkCmd "vcluster" ["list"; "--output"; "json"; "--namespace"; "team-a"] in
  exists d1,
    resourceVClusterRead 0%Z (toolSucceeds "[...]") (decodesTo exampleEntries) d []
    = Return ([], d1, [list]) /\
    resourceVClusterRead 0%Z (toolSucceeds "[...]") (decodesTo exampleEntries) d1 [list]
    = Return ([], d1, [list; list]).
Proof.
  intros d list.
  destruct (read_twice 0%Z (toolSucceeds "[...]") (decodesTo exampleEntries) d []
              "[...]" "[...]" exampleEntries eq_refl eq_refl eq_refl eq_refl eq_refl)
    as (d1 & Hfirst & Hsecond).
  exists d1. split; [exact Hfirst|]. apply Hsecond. left.
  exists {| Name := "dev1"; Namespace := "team-a"; Status := "Running";
            Created := 1670555532%Z; Context := "" |}.
  split; [|discriminate].
  eexists [_; _], []. split; [reflexivity|]. split; [reflexivity | constructor].
Defined.


Lemma unread_fields_play_no_part_witness :
  let d := mkResourceData "" (exampleFields (Time := Z)) in
  sameRun (resourceVClusterCreate (toolSucceeds ""))
          (Set_ d "chart" (VString "vcluster-k8s")) d [].
Proof.
  intros d.
  destruct (unread_fields_play_no_part 0%Z (toolSucceeds "") (decodesTo []) d []
              "chart" (VString "vcluster-k8s")) as [Hcreate _].
  apply Hcreate. simpl.
  intros Hin. repeat (destruct Hin as [E|Hin]; [discriminate E|]). exact Hin.
Defined.

Lemma scanEntries_last_named_witness :
  let first := {| Name := "dev1"; Namespace := "team-a"; Status := "Pending";
                  Created := 1670555530%Z; Context := "" |} in
  let second := {| Name := "dev1"; Namespace := "team-a"; Status := "Running";
                   Created := 1670555532%Z; Context := "" |} in
  let other := {| Name := "dev2"; Namespace := "team-b"; Status := "Running";
                  Created := 1670555531%Z; Context := "" |} in
  last [first; second] =
  Some (scanEntries 0%Z "dev1" ([other] ++ [first; second] ++ [other])).
Proof.
  intros first second other.
  destruct (scanEntries_last_named 0%Z "dev1" []) as (_ & _ & Hlast).
  apply (Hlast [other] [first; second]).
  - repeat constructor. discriminate.
  - by repeat constructor.
  - discriminate.
Defined.

Lemma api_version_only_warns_witness :
  Forall (fun dg => DSeverity dg = Warning) []
  /\ length (@nil Diagnostic) <= 1
  /\ (@nil Diagnostic <> [] <->
      Some (VString (Time := Z) "client.authentication.k8s.io/v1beta1")
      = Some (VString "client.authentication.k8s.io/v1alpha1")).
Proof.
  destruct (api_version_only_warns
              (Some (VString (Time := Z) "client.authentication.k8s.io/v1beta1")))
    as [_ Hdiags].
  apply Hdiags. reflexivity.
Defined.

Lemma delete_then_read_witness :
  let d := mkResourceData "dev1" (exampleFields (Time := Z)) in
  let delete := mkCmd "vcluster" ["delete"; "dev1"; "--namespace"; "team-a"] in
  let list := mkCmd "vcluster" ["list"; "--output"; "json"; "--namespace"; "team-a"] in
  exists d2,
    resourceVClusterDelete (toolSucceeds "[]") d [] = Return ([], d, [delete]) /\
    resourceVClusterRead 0%Z (toolSucceeds "[]") (decodesTo []) d [delete]
    = Return ([], d2, [delete; list]) /\
    Id d2 = "" /\ fields d2 = fields d.
Proof.
  intros d delete list.
  destruct (delete_then_read 0%Z (toolSucceeds "[]") (decodesTo []) d [] "dev1"
              "[]" "[]" [] eq_refl eq_refl eq_refl eq_refl eq_refl)
    as (d2 & Hdelete & Hread & Hcleared & _).
  exists d2. split; [exact Hdelete|]. split; [exact Hread|].
  apply Hcleared. constructor.
Defined.

(** * Where the specification and the code part *)


(** A record named [--isolate=true] with isolate set: the token occurs twice
    in the vector of Create. *)
Lemma bool_flag_twice :
  let d := mkResourceData "" (flagNamedFields (Time := Z)) in
  wellTyped d = true /\
  Get d "isolate" = Some (VBool true) /\
  invokes (resourceVClusterCreate (toolSucceeds "")) d []
          ["create"; "--isolate=true"; "--connect=false"; "--isolate=true"] /\
  occurrences "--isolate=true"
              ["create"; "--isolate=true"; "--connect=false"; "--isolate=true"] = 2.
Proof.
  intros d. split; [reflexivity|]. split; [reflexivity|]. split; [|reflexivity].
  exact (Create_invokes (toolSucceeds "") d [] "--isolate=true" eq_refl eq_refl).
Qed.



(** A record imported under the identifier team-a, with name dev1 and
    namespace team-a: the identifier differs from the name field and still
    occurs in the vector of Delete. *)
Lemma delete_vector_holds_id :
  let d := mkResourceData "team-a" (exampleFields (Time := Z)) in
  Get d "name" = Some (VString "dev1") /\
  Id d <> "dev1" /\
  invokes (resourceVClusterDelete (toolSucceeds "")) d []
          ["delete"; "dev1"; "--namespace"; "team-a"] /\
  In (Id d) ["delete"; "dev1"; "--namespace"; "team-a"].
Proof.
  intros d. split; [reflexivity|]. split; [discriminate|]. split.
  - exact (Delete_invokes (toolSucceeds "") d [] "dev1" eq_refl eq_refl).
  - find_in_list.
Qed.
